(** * screenshot-analyzer: the report pipeline of [app.py]

    A shallow embedding of [src/app.py] and the properties of its report
    store: text normalisation ([preprocess_text]), the daily JSON report
    ([process_screenshot]), the readable report
    ([generate_readable_report]) and the read endpoint
    ([get_latest_report]).

    Python values are modelled as follows.
    - A [str] is the list of its Unicode code points ([list N]); [u] turns
      an ASCII literal into such a list.
    - The report dictionaries [{"analysis": {"text", "timestamp"},
      "total_time"?}] are records, the optional key an [option].
    - The file system is a finite map from paths to file contents.
    - A call that can raise returns in a state-and-exception monad; the
      state reached when the exception is raised is kept, since [app.py]
      has no handler around the pipeline. *)

From Stdlib Require Import ZArith NArith List Ascii String Lia Bool.
From Stdlib Require DecimalN DecimalPos.
From stdpp Require Import base option list gmap.

Local Open Scope N_scope.
Local Open Scope list_scope.

(** ** Python strings *)

Abbreviation str := (list N).

Fixpoint u (s : string) : str :=
  match s with
  | EmptyString => []
  | String a t => N_of_ascii a :: u t
  end.

(** [s.startswith(pre)], returning what follows the prefix. *)
Fixpoint strip_prefix (pre s : str) : option str :=
  match pre, s with
  | [], _ => Some s
  | p :: pre', c :: s' => if p =? c then strip_prefix pre' s' else None
  | _ :: _, [] => None
  end.

(** Length of the longest prefix whose characters all satisfy [p]. *)
Fixpoint span_len (p : N -> bool) (s : str) : nat :=
  match s with
  | c :: t => if p c then S (span_len p t) else O
  | [] => O
  end.

(** [sep.join(parts)] *)
Fixpoint join (sep : str) (parts : list str) : str :=
  match parts with
  | [] => []
  | [p] => p
  | p :: rest => p ++ sep ++ join sep rest
  end.

(** ** Regular-expression substitution

    [re_sub match_len repl 0 s] is [re.sub(pattern, repl, s)] for a pattern
    that matches no empty string: [match_len t] is the length of the
    (leftmost-first, greedy) match of the pattern that starts at the head of
    [t], if there is one.  The scan goes left to right; a match of length
    [n] is replaced by [repl] and the next [n] characters are skipped. *)
Fixpoint re_sub (match_len : str -> option nat) (repl : str)
    (skip : nat) (s : str) : str :=
  match s with
  | [] => []
  | c :: t =>
      match skip with
      | S k => re_sub match_len repl k t
      | O =>
          match match_len s with
          | Some (S k) => repl ++ re_sub match_len repl k t
          | _ => c :: re_sub match_len repl O t
          end
      end
  end.

(** ** [preprocess_text] *)

Section Text.
(** The two character classes of CPython's Unicode database that the
    regular expressions and [str.strip] consult: [Py_UNICODE_ISALNUM]
    and [Py_UNICODE_ISSPACE]. *)
Variable isalnum : N -> bool.
Variable isspace : N -> bool.

(** [\w] *)
Definition is_word (c : N) : bool := isalnum c || (c =? 95).
(** [\S] *)
Definition nonspace (c : N) : bool := negb (isspace c).
(** [.] without DOTALL: anything but a line feed *)
Definition dot (c : N) : bool := negb (c =? 10).

(** [\S+] at the head of [r], after [consumed] characters of the match *)
Definition nonspace_run (consumed : nat) (r : str) : option nat :=
  match span_len nonspace r with
  | O => None
  | S n => Some (consumed + S n)%nat
  end.

(** [://\S+] *)
Definition url_tail (consumed : nat) (r : str) : option nat :=
  match strip_prefix (u "://") r with
  | Some r' => nonspace_run (consumed + 3) r'
  | None => None
  end.

(** [https?://\S+]: the greedy [s?] first tries to take the [s]. *)
Definition match_http (s : str) : option nat :=
  match strip_prefix (u "http") s with
  | None => None
  | Some r =>
      match
        match strip_prefix (u "s") r with
        | Some r' => url_tail 5 r'
        | None => None
        end
      with
      | Some n => Some n
      | None => url_tail 4 r
      end
  end.

(** [www\.\S+] *)
Definition match_www (s : str) : option nat :=
  match strip_prefix (u "www.") s with
  | Some r => nonspace_run 4 r
  | None => None
  end.

(** [https?://\S+|www\.\S+] *)
Definition match_url (s : str) : option nat :=
  match match_http s with
  | Some n => Some n
  | None => match_www s
  end.

(** [$] without MULTILINE: at the end, or before a final line feed *)
Definition at_dollar (r : str) : bool :=
  match r with
  | [] => true
  | [c] => c =? 10
  | _ => false
  end.

(** The greedy [.*] followed by [$]: the longest [k' <= k] with [$]
    matching after [k'] characters of [r]. *)
Fixpoint backtrack_dollar (k : nat) (r : str) : option nat :=
  if at_dollar (drop k r) then Some k
  else match k with
       | O => None
       | S k' => backtrack_dollar k' r
       end.

(** [\?.*$] *)
Definition match_query (s : str) : option nat :=
  match s with
  | c :: r =>
      if c =? 63 then
        match backtrack_dollar (span_len dot r) r with
        | Some k => Some (S k)
        | None => None
        end
      else None
  | [] => None
  end.

(** [[^\w\s]] *)
Definition match_special (s : str) : option nat :=
  match s with
  | c :: _ => if negb (is_word c || isspace c) then Some 1%nat else None
  | [] => None
  end.

(** [\s+] *)
Definition match_spaces (s : str) : option nat :=
  match span_len isspace s with
  | O => None
  | S n => Some (S n)
  end.

Fixpoint lstrip (s : str) : str :=
  match s with
  | c :: t => if isspace c then lstrip t else s
  | [] => []
  end.

Definition rstrip (s : str) : str := rev (lstrip (rev s)).

(** [s.strip()] *)
Definition strip (s : str) : str := rstrip (lstrip s).

Definition preprocess_text (text : str) : str :=
  let text := re_sub match_url [] 0 text in
  let text := re_sub match_query [] 0 text in
  let text := re_sub match_special [] 0 text in
  let text := strip (re_sub match_spaces (u " ") 0 text) in
  text.

(** *** Shape of normalised text *)

(** A character of normalised text: a word character that is not white
    space, or the space itself. *)
Definition ok_char (c : N) : bool :=
  (negb (isspace c) && is_word c) || (c =? 32).

(** [tidy b s]: every character of [s] is [ok_char], no two spaces are
    adjacent, and [s] does not start with a space when [b] is set. *)
Fixpoint tidy (b : bool) (s : str) : bool :=
  match s with
  | [] => true
  | c :: t =>
      if c =? 32 then negb b && tidy true t
      else negb (isspace c) && is_word c && tidy false t
  end.

(** [\s+ -> " "] as a one-pass scan; [in_run] tells that the previous
    character was white space. *)
Fixpoint collapse (in_run : bool) (s : str) : str :=
  match s with
  | [] => []
  | c :: t =>
      if isspace c then
        if in_run then collapse true t else 32 :: collapse true t
      else c :: collapse false t
  end.

(** Normalised text: [tidy], with no white space at either end. *)
Definition normal (s : str) : Prop :=
  tidy false s = true /\ lstrip s = s /\ lstrip (rev s) = rev s.
End Text.

(** The classification of the ASCII code points (the Unicode database
    restricted to them), for running the definitions on ASCII text. *)
Definition ascii_isalnum (c : N) : bool :=
  ((48 <=? c) && (c <=? 57)) || ((65 <=? c) && (c <=? 90))
  || ((97 <=? c) && (c <=? 122)).

Definition ascii_isspace (c : N) : bool :=
  ((9 <=? c) && (c <=? 13)) || ((28 <=? c) && (c <=? 32)).

(** ** Decimal numerals *)

Fixpoint uint_str (d : Decimal.uint) : str :=
  match d with
  | Decimal.Nil => []
  | Decimal.D0 d => 48 :: uint_str d
  | Decimal.D1 d => 49 :: uint_str d
  | Decimal.D2 d => 50 :: uint_str d
  | Decimal.D3 d => 51 :: uint_str d
  | Decimal.D4 d => 52 :: uint_str d
  | Decimal.D5 d => 53 :: uint_str d
  | Decimal.D6 d => 54 :: uint_str d
  | Decimal.D7 d => 55 :: uint_str d
  | Decimal.D8 d => 56 :: uint_str d
  | Decimal.D9 d => 57 :: uint_str d
  end.

(** ["%d" % n] *)
Definition show_Z (n : Z) : str :=
  match n with
  | Zneg p => u "-" ++ uint_str (Pos.to_uint p)
  | _ => uint_str (N.to_uint (Z.to_N n))
  end.

(** The [w] lowest decimal digits of [n]: ["%0wd" % n] when [n < 10^w]. *)
Fixpoint dec (w : nat) (n : N) : str :=
  match w with
  | O => []
  | S w' => dec w' (n / 10) ++ [48 + n mod 10]
  end.

Definition digit_val (c : N) : option N :=
  if (48 <=? c) && (c <=? 57) then Some (c - 48) else None.

Fixpoint parse_dec (acc : N) (s : str) : option N :=
  match s with
  | [] => Some acc
  | c :: t =>
      match digit_val c with
      | Some d => parse_dec (10 * acc + d) t
      | None => None
      end
  end.

(** ** Dates, times and durations (module [datetime])

    Second precision throughout: the only format in [app.py] is
    ["%Y-%m-%d %H:%M:%S"], so the microsecond field is always zero. *)

Record datetime := mkdt {
  year : N; month : N; day : N; hour : N; minute : N; second : N
}.

Record timedelta := mktd { days : Z; seconds : Z }.

Section Calendar.
Local Open Scope Z_scope.

Definition is_leap (y : Z) : bool :=
  (y mod 4 =? 0) && (negb (y mod 100 =? 0) || (y mod 400 =? 0)).

(** [_days_before_year] *)
Definition days_before_year (y : Z) : Z :=
  let y := y - 1 in y * 365 + y / 4 - y / 100 + y / 400.

(** [_DAYS_IN_MONTH], [_days_in_month] *)
Definition days_in_month (y m : Z) : Z :=
  if (m =? 2) && is_leap y then 29
  else nth (Z.to_nat m) [0; 31; 28; 31; 30; 31; 30; 31; 31; 30; 31; 30; 31] 0.

(** [_DAYS_BEFORE_MONTH], [_days_before_month] *)
Definition days_before_month (y m : Z) : Z :=
  nth (Z.to_nat m) [0; 0; 31; 59; 90; 120; 151; 181; 212; 243; 273; 304; 334] 0
  + (if (2 <? m) && is_leap y then 1 else 0).

(** [datetime.toordinal] *)
Definition toordinal (d : datetime) : Z :=
  days_before_year (Z.of_N (year d))
  + days_before_month (Z.of_N (year d)) (Z.of_N (month d))
  + Z.of_N (day d).

Definition second_of_day (d : datetime) : Z :=
  Z.of_N (second d) + Z.of_N (minute d) * 60 + Z.of_N (hour d) * 3600.

(** [timedelta(days, seconds)]: the seconds are brought into
    [0 <= seconds < 86400], the carry goes to the days ([divmod]). *)
Definition timedelta_new (d s : Z) : timedelta :=
  {| days := d + s / 86400; seconds := s mod 86400 |}.

(** [datetime.__sub__] of two naive datetimes *)
Definition datetime_sub (a b : datetime) : timedelta :=
  timedelta_new (toordinal a - toordinal b)
    (second_of_day a - second_of_day b).

Definition total_seconds (t : timedelta) : Z := days t * 86400 + seconds t.

(** [timedelta.__str__] *)
Definition timedelta_str (t : timedelta) : str :=
  let mm := seconds t / 60 in
  let ss := seconds t mod 60 in
  let hh := mm / 60 in
  let mm := mm mod 60 in
  let s := show_Z hh ++ u ":" ++ dec 2 (Z.to_N mm) ++ u ":"
           ++ dec 2 (Z.to_N ss) in
  if days t =? 0 then s
  else show_Z (days t) ++ u " day"
       ++ (if Z.abs (days t) =? 1 then [] else u "s") ++ u ", " ++ s.

(** The field ranges the [datetime] constructor accepts ([MINYEAR = 1],
    [MAXYEAR = 9999]); outside them it raises [ValueError]. *)
Definition valid_datetime (d : datetime) : bool :=
  let y := Z.of_N (year d) in
  let m := Z.of_N (month d) in
  (1 <=? y) && (y <=? 9999) && (1 <=? m) && (m <=? 12)
  && (1 <=? Z.of_N (day d)) && (Z.of_N (day d) <=? days_in_month y m)
  && (Z.of_N (hour d) <? 24) && (Z.of_N (minute d) <? 60)
  && (Z.of_N (second d) <? 60).
End Calendar.

(** [strftime("%Y-%m-%d")], for a clock reading: every field in range and
    the year of four digits.  (For a year below 1000 the C library may
    print fewer than four digits; what is proved of the printed year is
    stated for years from 1000 on.) *)
Definition strftime_date (d : datetime) : str :=
  dec 4 (year d) ++ u "-" ++ dec 2 (month d) ++ u "-" ++ dec 2 (day d).

(** [strftime("%Y-%m-%d %H:%M:%S")] *)
Definition strftime_ts (d : datetime) : str :=
  strftime_date d ++ u " " ++ dec 2 (hour d) ++ u ":" ++ dec 2 (minute d)
  ++ u ":" ++ dec 2 (second d).

(** A field of exactly [w] decimal digits. *)
Definition field (w : nat) (s : str) : option (N * str) :=
  if (length (take w s) =? w)%nat
  then n ← parse_dec 0 (take w s); Some (n, drop w s)
  else None.

Definition lit (c : N) (s : str) : option str :=
  match s with
  | c' :: t => if c =? c' then Some t else None
  | [] => None
  end.

(** [datetime.strptime(s, "%Y-%m-%d %H:%M:%S")] on the zero-padded,
    19-character strings that [strftime_ts] writes.  ([strptime] also
    reads some unpadded spellings, which [app.py] never writes; the report
    functions below therefore take the parser as a parameter, and this one
    is used to run them.) *)
Definition strptime_padded (s : str) : option datetime :=
  '(y, s) ← field 4 s; s ← lit 45 s;
  '(m, s) ← field 2 s; s ← lit 45 s;
  '(d, s) ← field 2 s; s ← lit 32 s;
  '(hh, s) ← field 2 s; s ← lit 58 s;
  '(mi, s) ← field 2 s; s ← lit 58 s;
  '(ss, s) ← field 2 s;
  match s with
  | [] =>
      let dt := mkdt y m d hh mi ss in
      if valid_datetime dt then Some dt else None
  | _ => None
  end.

(** ** Reports *)

(** [report["analysis"]] *)
Record analysis_t := mk_analysis { text : str; timestamp : str }.

(** One element of the daily JSON array; [total_time = None] when the
    dictionary has no ["total_time"] key. *)
Record report_t := mk_report { analysis : analysis_t; total_time : option str }.

(** [r["total_time"] = s] *)
Definition set_total_time (s : str) (r : report_t) : report_t :=
  {| analysis := analysis r; total_time := Some s |}.

(** ** Exceptions, files and the pipeline monad *)

Inductive exn :=
  | OSError             (* open, save, write *)
  | FileNotFoundError   (* os.remove, Image.open, open(..., "r") *)
  | ValueError          (* datetime.strptime *)
  | IndexError
  | JSONDecodeError     (* json.load *)
  | ImageError          (* Image.open of something that is no image *)
  | CaptureError        (* ImageGrab.grab *)
  | OCRError            (* reader.readtext *)
  | SummarizerError     (* summarizer(...) *)
  | CorrectorError.     (* TextBlob(...).correct() *)

Inductive result (A : Type) :=
  | Ok (a : A)
  | Raise (e : exn).
Arguments Ok {A} a.
Arguments Raise {A} e.

(** An image, as an opaque value. *)
Definition image := N.

(** The content of a file.  [Json rs] is the text [json.dump(rs, f,
    indent=4)] writes, kept as the value [json.load] reads back from it;
    [Text s] is a text that is not JSON; [Partial] is what a file opened
    with mode ["w"] holds when the write that followed did not complete:
    nothing, or the beginning of the new text.  (A file holding JSON of
    another shape than a sequence of reports has no constructor: on it
    [json.load] returns and a later statement raises.) *)
Inductive file :=
  | Png (img : image)
  | Json (reports : list report_t)
  | Text (s : str)
  | Partial.

(** What happens when a path is opened for writing and written. *)
Inductive write_outcome :=
  | Written       (* opened, written, closed *)
  | OpenFails     (* [open] raises: the file system is left as it was *)
  | WriteFails.   (* opened (so truncated), then the write raises *)

(** Everything one run of the pipeline takes from outside: the clock
    readings, the collaborators and the behaviour of the disk.  A
    collaborator that raises returns [None]. *)
Record env := mk_env {
  time_time : Z;                   (* int(time.time()) in take_screenshot *)
  grab : option image;             (* ImageGrab.grab() *)
  enhance : image -> image;        (* convert('L'), contrast 2, SHARPEN *)
  readtext : image -> option (list str);
                                   (* text[1] of reader.readtext(...) *)
  localtime : datetime;            (* time.localtime() in analyze_screenshot *)
  now_store : datetime;            (* datetime.now() in process_screenshot *)
  now_readable : datetime;         (* ... in generate_readable_report *)
  summarizer : str -> option (list str);
                                   (* the summary_text of each output *)
  correct : str -> option str;     (* str(TextBlob(text).correct()) *)
  getlogin : option str;           (* os.getlogin(), None on OSError *)
  environ : str -> option str;     (* os.environ.get *)
  disk : str -> write_outcome
}.

Definition M (A : Type) : Type :=
  gmap str file -> result A * gmap str file.

Definition ret {A} (a : A) : M A := fun fs => (Ok a, fs).

Definition raise {A} (e : exn) : M A := fun fs => (Raise e, fs).

Definition bind {A B} (m : M A) (k : A -> M B) : M B :=
  fun fs =>
    match m fs with
    | (Ok a, fs') => k a fs'
    | (Raise e, fs') => (Raise e, fs')
    end.

Notation "'let*' x := m 'in' k" := (bind m (fun x => k))
  (at level 10, x name, m at level 100, k at level 200).

Definition lift {A} (r : result A) : M A := fun fs => (r, fs).

Definition or_raise {A} (e : exn) (o : option A) : result A :=
  match o with
  | Some a => Ok a
  | None => Raise e
  end.

(** [os.path.exists] *)
Definition path_exists (path : str) : M bool :=
  fun fs => (Ok (match fs !! path with Some _ => true | None => false end), fs).

(** [os.remove] *)
Definition os_remove (path : str) : M unit :=
  fun fs =>
    match fs !! path with
    | Some _ => (Ok tt, delete path fs)
    | None => (Raise FileNotFoundError, fs)
    end.

(** [with open(path, "w") as f: <write content>], and [image.save(path)] *)
Definition write_file (e : env) (path : str) (content : file) : M unit :=
  fun fs =>
    match disk e path with
    | Written => (Ok tt, <[path := content]> fs)
    | OpenFails => (Raise OSError, fs)
    | WriteFails => (Raise OSError, <[path := Partial]> fs)
    end.

(** [Image.open] *)
Definition image_open (path : str) : M image :=
  fun fs =>
    match fs !! path with
    | Some (Png img) => (Ok img, fs)
    | Some _ => (Raise ImageError, fs)
    | None => (Raise FileNotFoundError, fs)
    end.

(** [with open(path, "r") as f: json.load(f)]; what is not JSON is
    rejected at the load. *)
Definition json_load (path : str) : M (list report_t) :=
  fun fs =>
    match fs !! path with
    | Some (Json rs) => (Ok rs, fs)
    | Some _ => (Raise JSONDecodeError, fs)
    | None => (Raise FileNotFoundError, fs)
    end.

(** The [for] loop of [generate_readable_report]: the body is run on each
    element in order and stops at the first exception. *)
Fixpoint for_each {A B} (f : A -> result B) (l : list A) : result (list B) :=
  match l with
  | [] => Ok []
  | a :: t =>
      match f a with
      | Raise e => Raise e
      | Ok b =>
          match for_each f t with
          | Raise e => Raise e
          | Ok bs => Ok (b :: bs)
          end
      end
  end.

(** ** Paths *)

Definition SCREENSHOT_DIR : str := u "screenshots".

(** [os.path.join(a, b)] for a relative [b] (POSIX separator) *)
Definition path_join (a b : str) : str := a ++ u "/" ++ b.

(** [s.replace(old, new)] for a non-empty [old] *)
Definition replace (old new s : str) : str :=
  re_sub (fun t => match strip_prefix old t with
                   | Some _ => Some (length old)
                   | None => None
                   end) new 0 s.

(** ** The pipeline of [app.py] *)

Definition take_screenshot (e : env) : M str :=
  let timestamp := time_time e in
  let screenshot_path :=
    path_join SCREENSHOT_DIR
      (u "screenshot_" ++ show_Z timestamp ++ u ".png") in
  let* screenshot := lift (or_raise CaptureError (grab e)) in
  let* _ := write_file e screenshot_path (Png screenshot) in
  ret screenshot_path.

Definition preprocess_image (e : env) (image_path : str) : M str :=
  let* image := image_open image_path in
  let image := enhance e image in
  let preprocessed_path :=
    replace (u ".png") (u "_preprocessed.png") image_path in
  let* _ := write_file e preprocessed_path (Png image) in
  ret preprocessed_path.

Definition analyze_screenshot (e : env) (screenshot_path : str) : M report_t :=
  let* preprocessed_path := preprocess_image e screenshot_path in
  let* image := image_open preprocessed_path in
  let* result := lift (or_raise OCRError (readtext e image)) in
  let analysis_report :=
    {| analysis := {| text := join (u " ") result;
                      timestamp := strftime_ts (localtime e) |};
       total_time := None |} in
  let* present := path_exists preprocessed_path in
  let* _ := (if present then os_remove preprocessed_path else ret tt) in
  ret analysis_report.

(** [a or b] on strings that may be [None]: the empty string is false. *)
Definition str_or (a : option str) (b : option str) : option str :=
  match a with
  | Some (c :: t) => Some (c :: t)
  | _ => b
  end.

Definition get_username (e : env) : str :=
  match getlogin e with
  | Some username => username
  | None =>
      default (u "User")
        (str_or (str_or (environ e (u "USER")) (environ e (u "USERNAME")))
           (Some (u "User")))
  end.

Definition frame_sentence (e : env) (text : str) : result str :=
  or_raise CorrectorError (correct e text).

Section Pipeline.
(** The library functions the pipeline is parametric in: the two
    character classes of [preprocess_text], and
    [datetime.strptime(_, "%Y-%m-%d %H:%M:%S")], [None] for a
    [ValueError]. *)
Variable isalnum : N -> bool.
Variable isspace : N -> bool.
Variable strptime : str -> option datetime.

(** The body of the loop of [generate_readable_report]. *)
Definition format_entry (e : env) (username : str) (report : report_t)
  : result str :=
  let text := text (analysis report) in
  let timestamp := timestamp (analysis report) in
  let time_difference := default (u "N/A") (total_time report) in
  let cleaned_text := preprocess_text isalnum isspace text in
  match or_raise SummarizerError (summarizer e cleaned_text) with
  | Raise x => Raise x
  | Ok summary_response =>
      match
        match summary_response with
        | summarized_text :: _ => frame_sentence e summarized_text
        | [] => Ok (u "Summary could not be generated.")
        end
      with
      | Raise x => Raise x
      | Ok framed_text =>
          Ok (u "On " ++ timestamp ++ u "," ++ [10] ++ u " " ++ username
              ++ u " was reviewing information related to: " ++ framed_text
              ++ u "." ++ [10]
              ++ u "Total time since the first report: " ++ time_difference
              ++ u ".")
      end
  end.

Definition generate_readable_report (e : env) (reports : list report_t)
  : M unit :=
  let username := get_username e in
  let* formatted_entries := lift (for_each (format_entry e username) reports) in
  let readable_report := join [10] formatted_entries in
  let today_date := strftime_date (now_readable e) in
  let summary_file :=
    path_join SCREENSHOT_DIR
      (u "readable_report_" ++ today_date ++ u ".txt") in
  write_file e summary_file (Text readable_report).

(** Lines 165-176 of [process_screenshot]: the new report is appended,
    and when the list then has more than one element, the last element
    (the new report itself) gets the time elapsed since the first. *)
Definition update_reports (existing_reports : list report_t)
    (report : report_t) : result (list report_t) :=
  let existing_reports := existing_reports ++ [report] in
  if (1 <? length existing_reports)%nat then
    match existing_reports !! 0%nat with
    | None => Raise IndexError
    | Some first =>
        match strptime (timestamp (analysis first)) with
        | None => Raise ValueError
        | Some first_report_time =>
            match strptime (timestamp (analysis report)) with
            | None => Raise ValueError
            | Some latest_report_time =>
                let time_difference :=
                  datetime_sub latest_report_time first_report_time in
                let time_difference_str := timedelta_str time_difference in
                Ok (alter (set_total_time time_difference_str)
                      (length existing_reports - 1)%nat existing_reports)
            end
        end
    end
  else Ok existing_reports.

Definition report_path (current_date : str) : str :=
  path_join SCREENSHOT_DIR
    (u "combined_report_" ++ current_date ++ u ".json").

Definition process_screenshot (e : env) : M report_t :=
  let* screenshot_path := take_screenshot e in
  let* report := analyze_screenshot e screenshot_path in
  let current_date := strftime_date (now_store e) in
  let report_file := report_path current_date in
  let* present := path_exists report_file in
  let* existing_reports := (if present then json_load report_file else ret []) in
  let* existing_reports := lift (update_reports existing_reports report) in
  let* _ := write_file e report_file (Json existing_reports) in
  let* _ := generate_readable_report e existing_reports in
  let* _ := os_remove screenshot_path in
  ret (List.last existing_reports report).
End Pipeline.

(** ** The read endpoint *)

Inductive body :=
  | ErrorBody (message : str)          (* {"error": message} *)
  | ReportBody (reports : list report_t).

(** [get_latest_report]: the body and the HTTP status; [jsonify] alone is
    status 200. *)
Definition get_latest_report : M (body * Z) :=
  let report_file := path_join SCREENSHOT_DIR (u "combined_report.json") in
  let* present := path_exists report_file in
  if negb present then ret (ErrorBody (u "No reports available"), 404%Z)
  else
    let* report_data := json_load report_file in
    ret (ReportBody report_data, 200%Z).

(** ** Names for what a run reads and writes *)

(** The path [take_screenshot] saves to when [int(time.time())] is [t]. *)
Definition screenshot_file (t : Z) : str :=
  path_join SCREENSHOT_DIR (u "screenshot_" ++ show_Z t ++ u ".png").

(** The path [preprocess_image] saves to for that screenshot. *)
Definition preprocessed_file (t : Z) : str :=
  replace (u ".png") (u "_preprocessed.png") (screenshot_file t).

(** The path [generate_readable_report] writes on the day [today_date]. *)
Definition readable_path (today_date : str) : str :=
  path_join SCREENSHOT_DIR (u "readable_report_" ++ today_date ++ u ".txt").

(** The path [get_latest_report] reads. *)
Definition latest_path : str :=
  path_join SCREENSHOT_DIR (u "combined_report.json").

(** The dictionary [analyze_screenshot] builds from the recognised
    fragments [words]. *)
Definition new_report (e : env) (words : list str) : report_t :=
  {| analysis := {| text := join (u " ") words;
                    timestamp := strftime_ts (localtime e) |};
     total_time := None |}.

(** The day's sequence as [process_screenshot] loads it: empty when the
    file is absent, [None] when [json.load] would raise. *)
Definition stored (fs : gmap str file) (date : str) : option (list report_t) :=
  match fs !! report_path date with
  | None => Some []
  | Some (Json rs) => Some rs
  | Some _ => None
  end.

(** The runs the scheduler starts one after the other, as long as each
    returns; the first exception ends the sequence. *)
Fixpoint run_all (isalnum isspace : N -> bool)
    (strptime : str -> option datetime) (es : list env)
    (fs : gmap str file) : result (gmap str file) :=
  match es with
  | [] => Ok fs
  | e :: es' =>
      match process_screenshot isalnum isspace strptime e fs with
      | (Ok _, fs') => run_all isalnum isspace strptime es' fs'
      | (Raise x, _) => Raise x
      end
  end.

(** ** Vocabulary of the properties *)

(** The [analysis] part of the report a run produces, when the capture and
    the OCR return. *)
Definition captured (e : env) : option analysis_t :=
  img ← grab e;
  words ← readtext e (enhance e img);
  Some (analysis (new_report e words)).

(** Seconds since the start of day 0 of the proleptic calendar. *)
Definition epoch_seconds (d : datetime) : Z :=
  (toordinal d * 86400 + second_of_day d)%Z.

(** [r] carries, as [total_time], the time from the timestamp of [first]
    to its own. *)
Definition elapsed_since (strptime : str -> option datetime)
    (first r : report_t) : Prop :=
  exists d0 d1,
    strptime (timestamp (analysis first)) = Some d0
    /\ strptime (timestamp (analysis r)) = Some d1
    /\ total_time r = Some (timedelta_str (datetime_sub d1 d0)).

(** Exactly the last record of [rs] has a [total_time]. *)
Definition only_last_has_total_time (rs : list report_t) : Prop :=
  forall (i : nat) (r : report_t),
    rs !! i = Some r -> (is_Some (total_time r) <-> S i = length rs).

(** The shape of a day's sequence that was built by appends alone: the
    first record has no [total_time], every later one carries the time
    elapsed since the first. *)
Definition day_ok (strptime : str -> option datetime) (rs : list report_t)
  : Prop :=
  match rs with
  | [] => True
  | first :: rest =>
      total_time first = None /\ Forall (elapsed_since strptime first) rest
  end.

(** A run in which nothing around the pipeline fails: the capture, the
    OCR, the summariser, the corrector and the disk all work, and the
    clock of [analyze_screenshot] shows a valid date and time in a year of
    four digits. *)
Definition healthy (e : env) : Prop :=
  is_Some (grab e)
  /\ (forall img, is_Some (readtext e img))
  /\ (forall path, disk e path = Written)
  /\ (forall t, is_Some (summarizer e t))
  /\ (forall t, is_Some (correct e t))
  /\ valid_datetime (localtime e) = true
  /\ 1000 <= year (localtime e).

(** A line feed directly followed by a line feed. *)
Fixpoint has_blank_line (s : str) : bool :=
  match s with
  | c :: t =>
      match t with
      | c' :: _ => ((c =? 10) && (c' =? 10)) || has_blank_line t
      | [] => false
      end
  | [] => false
  end.

(** ** Sample environments *)

(** A run at the moment [now], Unix time [t], where the OCR recognises
    [words] and every collaborator and the disk work. *)
Definition sample_env (t : Z) (now : datetime) (words : list str) : env :=
  {| time_time := t;
     grab := Some 7;
     enhance := fun img => img + 1;
     readtext := fun _ => Some words;
     localtime := now;
     now_store := now;
     now_readable := now;
     summarizer := fun s => Some [s];
     correct := fun s => Some s;
     getlogin := Some (u "alice");
     environ := fun _ => None;
     disk := fun _ => Written |}.

Definition env_1000 : env :=
  sample_env 1704103200 (mkdt 2024 1 1 10 0 0) [u "Quarterly"; u "report"].
Definition env_1004 : env :=
  sample_env 1704103470 (mkdt 2024 1 1 10 4 30) [u "Inbox"].
Definition env_1008 : env :=
  sample_env 1704103710 (mkdt 2024 1 1 10 8 30) [u "Budget"; u "sheet"].

Fixpoint str_eqb (a b : str) : bool :=
  match a, b with
  | [], [] => true
  | c :: a', d :: b' => (c =? d) && str_eqb a' b'
  | _, _ => false
  end.

Definition with_readtext (e : env) (f : image -> option (list str)) : env :=
  {| time_time := time_time e; grab := grab e; enhance := enhance e;
     readtext := f; localtime := localtime e; now_store := now_store e;
     now_readable := now_readable e; summarizer := summarizer e;
     correct := correct e; getlogin := getlogin e; environ := environ e;
     disk := disk e |}.

Definition with_disk (e : env) (f : str -> write_outcome) : env :=
  {| time_time := time_time e; grab := grab e; enhance := enhance e;
     readtext := readtext e; localtime := localtime e;
     now_store := now_store e; now_readable := now_readable e;
     summarizer := summarizer e; correct := correct e;
     getlogin := getlogin e; environ := environ e; disk := f |}.

(** The run of 10:00:00 with an OCR engine that raises. *)
Definition env_ocr_fails : env := with_readtext env_1000 (fun _ => None).

(** The run of 10:04:30 on a disk where the write of the day's JSON file
    fails after the file was opened. *)
Definition env_write_fails : env :=
  with_disk env_1004
    (fun path => if str_eqb path (report_path (u "2024-01-01"))
                 then WriteFails else Written).

Definition with_summarizer (e : env) (f : str -> option (list str)) : env :=
  {| time_time := time_time e; grab := grab e; enhance := enhance e;
     readtext := readtext e; localtime := localtime e;
     now_store := now_store e; now_readable := now_readable e;
     summarizer := f; correct := correct e; getlogin := getlogin e;
     environ := environ e; disk := disk e |}.

(** The run of 10:04:30 with a summariser that raises. *)
Definition env_summarizer_fails : env :=
  with_summarizer env_1004 (fun _ => None).

(** The run of 10:00:00 on a screen where the OCR recognises nothing. *)
Definition env_empty_ocr : env := with_readtext env_1000 (fun _ => Some []).

(** The run of 10:00:00 in a session without login name, where only
    [USER] is set. *)
Definition env_no_login : env :=
  {| time_time := time_time env_1000; grab := grab env_1000;
     enhance := enhance env_1000; readtext := readtext env_1000;
     localtime := localtime env_1000; now_store := now_store env_1000;
     now_readable := now_readable env_1000;
     summarizer := summarizer env_1000; correct := correct env_1000;
     getlogin := None;
     environ := fun key => if str_eqb key (u "USER") then Some (u "bob")
                           else None;
     disk := disk env_1000 |}.

(** The pipeline with the ASCII character classes and the parser of
    zero-padded timestamps. *)
Definition sample_process (e : env) : M report_t :=
  process_screenshot ascii_isalnum ascii_isspace strptime_padded e.

Definition sample_runs (es : list env) (fs : gmap str file)
  : result (gmap str file) :=
  run_all ascii_isalnum ascii_isspace strptime_padded es fs.

Definition is_Ok {A} (r : result A) : bool :=
  match r with
  | Ok _ => true
  | Raise _ => false
  end.

(** The file system after the runs [es], started on an empty one. *)
Definition fs_after (es : list env) : gmap str file :=
  match sample_runs es ∅ with
  | Ok fs => fs
  | Raise _ => ∅
  end.

(** The file system one run leaves, and the report it returns. *)
Definition step_fs (e : env) (fs : gmap str file) : gmap str file :=
  snd (sample_process e fs).

Definition step_report (e : env) (fs : gmap str file) : report_t :=
  match fst (sample_process e fs) with
  | Ok r => r
  | Raise _ => new_report e []
  end.

(** The two entries of the readable report after the runs of 10:00:00 and
    10:04:30. *)
Definition entry_1000 : str :=
  u "On 2024-01-01 10:00:00," ++ [10]
  ++ u " alice was reviewing information related to: Quarterly report."
  ++ [10] ++ u "Total time since the first report: N/A.".

Definition entry_1004 : str :=
  u "On 2024-01-01 10:04:30," ++ [10]
  ++ u " alice was reviewing information related to: Inbox."
  ++ [10] ++ u "Total time since the first report: 0:04:30.".

(* ================================================================= *)
(** * Properties *)

Example preprocess_text_ex1 :
  preprocess_text ascii_isalnum ascii_isspace
    (u "  Visit https://a.b/c?x=1 now,  or www.site.org!  ok? yes")
  = u "Visit now or ok".
Proof. vm_compute. reflexivity. Qed.

(** ** Text normalisation *)

Lemma strip_prefix_app (pre s r : str) :
  strip_prefix pre s = Some r -> s = pre ++ r.
Proof.
  revert s; induction pre as [|p pre IH]; intros [|c s]; simpl; try congruence.
  destruct (N.eqb_spec p c); [|discriminate].
  intros H; apply IH in H; congruence.
Qed.

Lemma re_sub_skip ml repl (k : nat) (s : str) :
  re_sub ml repl k s = re_sub ml repl 0 (drop k s).
Proof.
  revert k; induction s as [|c t IH]; intros [|k]; try reflexivity.
  simpl re_sub at 1. rewrite IH. reflexivity.
Qed.

(** A pattern that matches at no position leaves the string as it is. *)
Lemma re_sub_no_match ml repl (s : str) :
  (forall n, ml (drop n s) = None) -> re_sub ml repl 0 s = s.
Proof.
  induction s as [|c t IH]; intros H; [reflexivity|].
  simpl. pose proof (H 0%nat) as H0. simpl in H0. rewrite H0. f_equal. apply IH. intros n. apply (H (S n)).
Qed.

Section TextFacts.
Variable isalnum : N -> bool.
Variable isspace : N -> bool.
(** What the proofs use of the Unicode database: the space is white
    space; colon, full stop and question mark are not alphanumeric. *)
Hypothesis space_isspace : isspace 32 = true.
Hypothesis colon_not_alnum : isalnum 58 = false.
Hypothesis stop_not_alnum : isalnum 46 = false.
Hypothesis query_not_alnum : isalnum 63 = false.

Local Abbreviation is_word := (is_word isalnum).
Local Abbreviation lstrip := (lstrip isspace).
Local Abbreviation rstrip := (rstrip isspace).
Local Abbreviation strip := (strip isspace).
Local Abbreviation match_url := (match_url isspace).
Local Abbreviation match_special := (match_special isalnum isspace).
Local Abbreviation match_spaces := (match_spaces isspace).
Local Abbreviation ok_char := (ok_char isalnum isspace).
Local Abbreviation tidy := (tidy isalnum isspace).
Local Abbreviation collapse := (collapse isspace).
Local Abbreviation normal := (normal isalnum isspace).

Lemma tidy_ok b s : tidy b s = true -> Forall (fun c => ok_char c = true) s.
Proof.
  revert b; induction s as [|c t IH]; intros b H; [constructor|].
  simpl in H. unfold ok_char. destruct (N.eqb_spec c 32) as [->|Hc].
  - apply andb_true_iff in H as [_ H]. constructor; [|eauto].
    rewrite N.eqb_refl. apply orb_true_r.
  - apply andb_true_iff in H as [H1 H]. constructor; [|eauto].
    rewrite H1. reflexivity.
Qed.

Lemma tidy_weaken b s : tidy b s = true -> tidy false s = true.
Proof.
  destruct s as [|c t]; [reflexivity|]. simpl.
  destruct (c =? 32); [|tauto].
  intros H. apply andb_true_iff in H as [_ H]. exact H.
Qed.

Lemma tidy_tail b c t : tidy b (c :: t) = true -> tidy false t = true.
Proof.
  simpl. destruct (c =? 32); intros H; apply andb_true_iff in H as [_ H];
    eauto using tidy_weaken.
Qed.

Lemma tidy_app_l b s1 s2 : tidy b (s1 ++ s2) = true -> tidy b s1 = true.
Proof.
  revert b; induction s1 as [|c t IH]; intros b; [reflexivity|].
  simpl. destruct (c =? 32); intros H; apply andb_true_iff in H as [H1 H];
    rewrite H1; simpl; eauto.
Qed.

Lemma tidy_app_r b s1 s2 : tidy b (s1 ++ s2) = true -> tidy false s2 = true.
Proof.
  revert b; induction s1 as [|c t IH]; intros b H.
  - eauto using tidy_weaken.
  - simpl in H. destruct (c =? 32);
      apply andb_true_iff in H as [_ H]; eauto.
Qed.

Lemma ok_char_plain c :
  ok_char c = true -> c <> 58 /\ c <> 46 /\ c <> 63.
Proof.
  unfold ok_char, is_word.
  intros H. repeat split; intros ->; revert H;
    rewrite ?colon_not_alnum, ?stop_not_alnum, ?query_not_alnum;
    simpl; rewrite andb_false_r; discriminate.
Qed.
Lemma ok_forall_plain s :
  Forall (fun c => ok_char c = true) s ->
  Forall (fun c => c <> 58 /\ c <> 46 /\ c <> 63) s.
Proof. intros H. eapply Forall_impl; [exact H|exact ok_char_plain]. Qed.

(** *** No pattern matches in text without [:], [.] and [?] *)

Lemma url_tail_none k (r : str) :
  Forall (fun c => c <> 58 /\ c <> 46 /\ c <> 63) r ->
  url_tail isspace k r = None.
Proof.
  intros H. unfold url_tail.
  destruct (strip_prefix (u "://") r) as [r'|] eqn:E; [|reflexivity].
  apply strip_prefix_app in E. subst r. simpl in H.
  apply Forall_cons in H as [[Hc _] _]. exfalso; apply Hc; reflexivity.
Qed.

Lemma match_url_none (s : str) :
  Forall (fun c => c <> 58 /\ c <> 46 /\ c <> 63) s -> match_url s = None.
Proof.
  intros H. unfold match_url, match_http, match_www.
  destruct (strip_prefix (u "http") s) as [r|] eqn:E.
  - apply strip_prefix_app in E. subst s.
    apply Forall_app in H as [_ H].
    rewrite (url_tail_none 4 r H).
    destruct (strip_prefix (u "s") r) as [r'|] eqn:E'.
    + apply strip_prefix_app in E'. subst r.
      apply Forall_app in H as [_ H]. rewrite (url_tail_none 5 r' H).
      destruct (strip_prefix (u "www.") _) eqn:E''; [|reflexivity].
      simpl in E''. discriminate.
    + destruct (strip_prefix (u "www.") _) eqn:E''; [|reflexivity].
      simpl in E''. discriminate.
  - destruct (strip_prefix (u "www.") s) as [r|] eqn:E'; [|reflexivity].
    apply strip_prefix_app in E'. subst s. simpl in H.
    do 3 (apply Forall_cons in H as [_ H]).
    apply Forall_cons in H as [[_ [Hc _]] _]. exfalso; apply Hc; reflexivity.
Qed.

Lemma match_query_none (s : str) :
  Forall (fun c => c <> 58 /\ c <> 46 /\ c <> 63) s ->
  match_query s = None.
Proof.
  destruct s as [|c r]; [reflexivity|]. intros H.
  apply Forall_cons in H as [[_ [_ Hc]] _]. simpl.
  destruct (N.eqb_spec c 63); congruence.
Qed.

Lemma match_special_none (s : str) :
  Forall (fun c => ok_char c = true) s -> match_special s = None.
Proof.
  destruct s as [|c r]; [reflexivity|]. intros H.
  apply Forall_cons in H as [Hc _]. simpl.
  unfold ok_char in Hc.
  destruct (N.eqb_spec c 32) as [->|_].
  - rewrite space_isspace, orb_true_r. reflexivity.
  - rewrite orb_false_r in Hc. apply andb_true_iff in Hc as [_ ->].
    reflexivity.
Qed.

(** *** The white-space pass *)

Lemma match_spaces_cons c (t : str) :
  match_spaces (c :: t)
  = if isspace c then Some (S (span_len isspace t)) else None.
Proof.
  unfold match_spaces. simpl. destruct (isspace c); reflexivity.
Qed.

Lemma re_sub_spaces (s : str) :
  re_sub match_spaces (u " ") 0 s = collapse false s
  /\ re_sub match_spaces (u " ") (span_len isspace s) s = collapse true s.
Proof.
  induction s as [|c t [IH0 IH1]]; [split; reflexivity|].
  cbn [re_sub span_len collapse]. rewrite match_spaces_cons.
  destruct (isspace c).
  - cbn [re_sub]. rewrite IH1. split; reflexivity.
  - rewrite IH0. split; reflexivity.
Qed.

Lemma collapse_tidy b (s : str) :
  Forall (fun c => is_word c || isspace c = true) s ->
  tidy b (collapse b s) = true.
Proof.
  revert b; induction s as [|c t IH]; intros b H; [reflexivity|].
  apply Forall_cons in H as [Hc H]. simpl.
  destruct (isspace c) eqn:Es.
  - destruct b; simpl; auto.
  - simpl. rewrite orb_false_r in Hc.
    destruct (N.eqb_spec c 32) as [->|_]; [congruence|].
    rewrite Es, Hc. simpl. auto.
Qed.

Lemma tidy_collapse b (s : str) : tidy b s = true -> collapse b s = s.
Proof.
  revert b; induction s as [|c t IH]; intros b H; [reflexivity|].
  simpl in *. destruct (N.eqb_spec c 32) as [->|_].
  - rewrite space_isspace. apply andb_true_iff in H as [Hb H].
    destruct b; [discriminate|]. f_equal. auto.
  - apply andb_true_iff in H as [H1 H]. apply andb_true_iff in H1 as [H1 _].
    apply negb_true_iff in H1. rewrite H1. f_equal. auto.
Qed.

Lemma special_pass (s : str) :
  Forall (fun c => is_word c || isspace c = true)
    (re_sub match_special [] 0 s).
Proof.
  induction s as [|c t IH]; [constructor|].
  simpl. destruct (is_word c || isspace c) eqn:E; simpl; auto.
Qed.

(** *** [strip] *)

Lemma lstrip_split (s : str) :
  exists w, s = w ++ lstrip s.
Proof.
  induction s as [|c t [w IH]]; [exists []; reflexivity|].
  simpl. destruct (isspace c).
  - exists (c :: w). simpl. congruence.
  - exists []. reflexivity.
Qed.

Lemma lstrip_idem (s : str) : lstrip (lstrip s) = lstrip s.
Proof.
  induction s as [|c t IH]; [reflexivity|].
  simpl. destruct (isspace c) eqn:E; [exact IH|]. simpl. rewrite E.
  reflexivity.
Qed.

Lemma rstrip_split (s : str) : exists w, s = rstrip s ++ w.
Proof.
  unfold rstrip. destruct (lstrip_split (rev s)) as [w Hw].
  exists (rev w). rewrite <- rev_app_distr, <- Hw, rev_involutive.
  reflexivity.
Qed.

Lemma lstrip_prefix_fixed (s w : str) :
  lstrip (s ++ w) = s ++ w -> lstrip s = s.
Proof.
  destruct s as [|c t]; [reflexivity|]. simpl.
  destruct (isspace c); [|reflexivity].
  intros H. exfalso.
  destruct (lstrip_split (t ++ w)) as [w' Hw'].
  rewrite H in Hw'. apply (f_equal length) in Hw'.
  rewrite !length_app in Hw'. cbn [length] in Hw'.
  rewrite length_app in Hw'. lia.
Qed.

Lemma strip_normal (s : str) :
  tidy false s = true -> normal (strip s).
Proof.
  intros H. unfold normal, strip.
  destruct (lstrip_split s) as [w1 H1].
  destruct (rstrip_split (lstrip s)) as [w2 H2].
  repeat split.
  - rewrite H1, H2 in H. apply tidy_app_r in H. eapply tidy_app_l, H.
  - apply lstrip_prefix_fixed with (w := w2). rewrite <- H2.
    apply lstrip_idem.
  - unfold rstrip. rewrite rev_involutive. apply lstrip_idem.
Qed.

Lemma normal_fixed (s : str) : normal s -> preprocess_text isalnum isspace s = s.
Proof.
  intros (Ht & Hl & Hr). unfold preprocess_text.
  pose proof (tidy_ok _ _ Ht) as Hok.
  assert (Hpl : forall n, Forall (fun c => c <> 58 /\ c <> 46 /\ c <> 63)
                            (drop n s))
    by (intros n; apply Forall_drop, ok_forall_plain, Hok).
  rewrite (re_sub_no_match _ _ s) by (intros n; apply match_url_none, Hpl).
  rewrite (re_sub_no_match _ _ s) by (intros n; apply match_query_none, Hpl).
  rewrite (re_sub_no_match _ _ s)
    by (intros n; apply match_special_none, Forall_drop, Hok).
  rewrite (proj1 (re_sub_spaces s)), (tidy_collapse _ _ Ht).
  unfold strip, rstrip. rewrite Hl, Hr.
  apply rev_involutive.
Qed.

Lemma preprocess_text_normal (s : str) :
  normal (preprocess_text isalnum isspace s).
Proof.
  unfold preprocess_text. apply strip_normal.
  rewrite (proj1 (re_sub_spaces _)). apply collapse_tidy, special_pass.
Qed.

(** C8. Text normalisation is idempotent: for every string,
    [preprocess_text] applied to the output of [preprocess_text] gives
    that output back. *)
Theorem preprocess_text_idempotent (text : str) :
  preprocess_text isalnum isspace (preprocess_text isalnum isspace text)
  = preprocess_text isalnum isspace text.
Proof. apply normal_fixed, preprocess_text_normal. Qed.

(** *** What the normalised text looks like *)

Lemma tidy_no_double_space b (s : str) (i : nat) :
  tidy b s = true -> s !! i = Some 32 -> s !! S i <> Some 32.
Proof.
  revert b i; induction s as [|c t IH]; intros b i Ht Hi; [discriminate|].
  destruct i as [|i].
  - injection Hi as ->. simpl in Ht. apply andb_true_iff in Ht as [_ Ht].
    destruct t as [|d t]; [discriminate|]. simpl. intros [= ->].
    discriminate Ht.
  - apply (IH false i); [eapply tidy_tail, Ht|exact Hi].
Qed.

Lemma lstrip_fixed_head (s : str) (c : N) :
  lstrip s = s -> head s = Some c -> isspace c = false.
Proof.
  destruct s as [|d t]; [discriminate|]. simpl. intros H [= ->].
  destruct (isspace c); [|reflexivity]. exfalso.
  destruct (lstrip_split t) as [w Hw]. rewrite H in Hw.
  apply (f_equal length) in Hw. rewrite length_app in Hw. simpl in Hw. lia.
Qed.

Lemma head_rev (s : str) : head (rev s) = last s.
Proof.
  induction s as [|x l _] using rev_ind; [reflexivity|].
  rewrite rev_app_distr, last_snoc. reflexivity.
Qed.

(** X1. The output of [preprocess_text] consists of word characters and single
    spaces: every character is a word character that is not white space,
    or a space; no two spaces are adjacent; the text neither begins nor
    ends with white space. *)
Theorem preprocess_text_shape (text : str) :
  let out := preprocess_text isalnum isspace text in
  Forall (fun c => (is_word c = true /\ isspace c = false) \/ c = 32) out
  /\ (forall i, out !! i = Some 32 -> out !! S i <> Some 32)
  /\ (forall c, head out = Some c -> isspace c = false)
  /\ (forall c, last out = Some c -> isspace c = false).
Proof.
  intros out. destruct (preprocess_text_normal text) as (Ht & Hl & Hr).
  fold out in Ht, Hl, Hr. repeat split.
  - eapply Forall_impl; [apply (tidy_ok _ _ Ht)|]. intros c Hc.
    unfold ok_char in Hc. apply orb_true_iff in Hc as [Hc|Hc].
    + apply andb_true_iff in Hc as [H1 H2]. apply negb_true_iff in H1. auto.
    + right. apply N.eqb_eq, Hc.
  - intros i. apply (tidy_no_double_space _ _ _ Ht).
  - intros c. apply lstrip_fixed_head, Hl.
  - intros c Hc. apply (lstrip_fixed_head (rev out)); [exact Hr|].
    rewrite head_rev. exact Hc.
Qed.

Lemma tidy_of_shape b (s : str) :
  Forall (fun c => (is_word c = true /\ isspace c = false) \/ c = 32) s ->
  (forall i, s !! i = Some 32 -> s !! S i <> Some 32) ->
  (b = true -> head s <> Some 32) ->
  tidy b s = true.
Proof.
  revert b; induction s as [|c t IH]; intros b Hc Hd Hb; [reflexivity|].
  apply Forall_cons in Hc as [Hc Ht]. simpl.
  destruct (N.eqb_spec c 32) as [->|Hne].
  - apply andb_true_iff. split.
    + destruct b; [|reflexivity]. exfalso. apply Hb; reflexivity.
    + apply IH; [exact Ht| |].
      * intros i. apply (Hd (S i)).
      * intros _. destruct t as [|d t]; [discriminate|]. simpl.
        intros [= ->]. apply (Hd 0%nat); reflexivity.
  - destruct Hc as [[Hw Hs]|Hc]; [|contradiction]. rewrite Hs, Hw. simpl.
    apply IH; [exact Ht| |discriminate].
    intros i. apply (Hd (S i)).
Qed.

Lemma head_not_space_lstrip (s : str) :
  Forall (fun c => (is_word c = true /\ isspace c = false) \/ c = 32) s ->
  head s <> Some 32 -> lstrip s = s.
Proof.
  destruct s as [|c t]; [reflexivity|]. intros Hc Hh.
  apply Forall_cons in Hc as [[[_ Hs] | ->] _].
  - simpl. rewrite Hs. reflexivity.
  - exfalso. apply Hh. reflexivity.
Qed.

(** X2. Text that already has that shape is a fixed point: words of
    non-white-space word characters separated by single spaces, with no
    space at either end, come back unchanged. *)
Theorem preprocess_text_keeps_clean_text (text : str) :
  Forall (fun c => (is_word c = true /\ isspace c = false) \/ c = 32) text ->
  (forall i, text !! i = Some 32 -> text !! S i <> Some 32) ->
  head text <> Some 32 ->
  last text <> Some 32 ->
  preprocess_text isalnum isspace text = text.
Proof.
  intros Hc Hd Hh Hl. apply normal_fixed. repeat split.
  - apply tidy_of_shape; [exact Hc|exact Hd|discriminate].
  - apply head_not_space_lstrip; assumption.
  - apply head_not_space_lstrip.
    + apply Forall_rev, Hc.
    + rewrite head_rev. exact Hl.
Qed.

(** *** The normalised text is never longer *)

Lemma re_sub_length ml (repl : str) :
  (length repl <= 1)%nat ->
  forall (s : str) (k : nat), (length (re_sub ml repl k s) <= length s)%nat.
Proof.
  intros Hr. induction s as [|c t IH]; intros k; [simpl; lia|].
  cbn [re_sub]. destruct k as [|k].
  - destruct (ml (c :: t)) as [[|n]|].
    + simpl. specialize (IH 0%nat). lia.
    + rewrite length_app. specialize (IH n). simpl. lia.
    + simpl. specialize (IH 0%nat). lia.
  - specialize (IH k). simpl. lia.
Qed.

Lemma lstrip_length (s : str) : (length (lstrip s) <= length s)%nat.
Proof.
  destruct (lstrip_split s) as [w Hw]. rewrite Hw at 2.
  rewrite length_app. lia.
Qed.

(** X3. [preprocess_text] only deletes characters or replaces a run of white
    space by one space: its output is never longer than its input. *)
Theorem preprocess_text_never_longer (text : str) :
  (length (preprocess_text isalnum isspace text) <= length text)%nat.
Proof.
  unfold preprocess_text, strip, rstrip.
  rewrite length_rev.
  etransitivity; [apply lstrip_length|]. rewrite length_rev.
  etransitivity; [apply lstrip_length|].
  etransitivity; [apply re_sub_length; simpl; lia|].
  etransitivity; [apply re_sub_length; simpl; lia|].
  etransitivity; [apply re_sub_length; simpl; lia|].
  apply re_sub_length. simpl. lia.
Qed.

(** *** The question mark *)

Lemma url_tail_none_plain k (r : str) :
  Forall (fun c => c <> 58 /\ c <> 46) r -> url_tail isspace k r = None.
Proof.
  intros H. unfold url_tail.
  destruct (strip_prefix (u "://") r) as [r'|] eqn:E; [|reflexivity].
  apply strip_prefix_app in E. subst r. simpl in H.
  apply Forall_cons in H as [[Hc _] _]. exfalso; apply Hc; reflexivity.
Qed.

Lemma match_url_none_plain (s : str) :
  Forall (fun c => c <> 58 /\ c <> 46) s -> match_url s = None.
Proof.
  intros H. unfold match_url, match_http, match_www.
  destruct (strip_prefix (u "http") s) as [r|] eqn:E.
  - apply strip_prefix_app in E. subst s.
    apply Forall_app in H as [_ H].
    rewrite (url_tail_none_plain 4 r H).
    destruct (strip_prefix (u "s") r) as [r'|] eqn:E'.
    + apply strip_prefix_app in E'. subst r.
      apply Forall_app in H as [_ H]. rewrite (url_tail_none_plain 5 r' H).
      destruct (strip_prefix (u "www.") _) eqn:E''; [|reflexivity].
      simpl in E''. discriminate.
    + destruct (strip_prefix (u "www.") _) eqn:E''; [|reflexivity].
      simpl in E''. discriminate.
  - destruct (strip_prefix (u "www.") s) as [r|] eqn:E'; [|reflexivity].
    apply strip_prefix_app in E'. subst s. simpl in H.
    do 3 (apply Forall_cons in H as [_ H]).
    apply Forall_cons in H as [[_ Hc] _]. exfalso; apply Hc; reflexivity.
Qed.

Lemma span_len_all (p : N -> bool) (s : str) :
  Forall (fun c => p c = true) s -> span_len p s = length s.
Proof.
  induction s as [|c t IH]; intros H; [reflexivity|].
  apply Forall_cons in H as [Hc H]. simpl. rewrite Hc, IH by exact H.
  reflexivity.
Qed.

Lemma backtrack_dollar_end (r : str) :
  backtrack_dollar (length r) r = Some (length r).
Proof.
  assert (H : at_dollar (drop (length r) r) = true)
    by (rewrite drop_all; reflexivity).
  destruct (length r) as [|k]; cbn [backtrack_dollar]; rewrite H; reflexivity.
Qed.

(** [\?.*$] on text whose first question mark is followed by no line
    feed: everything from the question mark on goes. *)
Lemma query_pass_cuts (a b : str) :
  Forall (fun c => c <> 63) a ->
  Forall (fun c => c <> 10) b ->
  re_sub match_query [] 0 (a ++ 63 :: b) = a.
Proof.
  intros Ha Hb. induction a as [|c a IH].
  - cbn [app re_sub match_query]. rewrite N.eqb_refl.
    rewrite span_len_all, backtrack_dollar_end.
    + rewrite re_sub_skip, drop_all. reflexivity.
    + eapply Forall_impl; [exact Hb|]. intros c Hc. unfold dot.
      destruct (N.eqb_spec c 10); [contradiction|reflexivity].
  - apply Forall_cons in Ha as [Hc Ha]. rewrite <- app_comm_cons.
    cbn [re_sub]. replace (match_query (c :: a ++ 63 :: b)) with (@None nat).
    + rewrite IH by exact Ha. reflexivity.
    + simpl. destruct (N.eqb_spec c 63); [contradiction|reflexivity].
Qed.

(** X4. In text without colon and full stop (so without URL), everything from
    the first question mark on is discarded, as long as no line feed
    follows it: the text normalises like the part before the question
    mark. *)
Theorem preprocess_text_cuts_at_question_mark (a b : str) :
  Forall (fun c => c <> 58 /\ c <> 46 /\ c <> 63) a ->
  Forall (fun c => c <> 58 /\ c <> 46 /\ c <> 10) b ->
  preprocess_text isalnum isspace (a ++ 63 :: b)
  = preprocess_text isalnum isspace a.
Proof.
  intros Ha Hb. unfold preprocess_text.
  assert (Hab : Forall (fun c => c <> 58 /\ c <> 46) (a ++ 63 :: b)).
  { apply Forall_app. split.
    - eapply Forall_impl; [exact Ha|]. intros ? (? & ? & ?); auto.
    - constructor; [split; discriminate|].
      eapply Forall_impl; [exact Hb|]. intros ? (? & ? & ?); auto. }
  rewrite (re_sub_no_match match_url [] (a ++ 63 :: b))
    by (intros n; apply match_url_none_plain, Forall_drop, Hab).
  rewrite query_pass_cuts;
    [|eapply Forall_impl; [exact Ha|]; intros ? (? & ? & ?); auto
     |eapply Forall_impl; [exact Hb|]; intros ? (? & ? & ?); auto].
  rewrite (re_sub_no_match match_url [] a)
    by (intros n; apply match_url_none, Forall_drop, Ha).
  rewrite (re_sub_no_match match_query [] a)
    by (intros n; apply match_query_none, Forall_drop, Ha).
  reflexivity.
Qed.
End TextFacts.

(** ** Dates and durations *)

Example strptime_padded_ex :
  strptime_padded (u "2024-02-29 10:04:30") = Some (mkdt 2024 2 29 10 4 30)
  /\ strptime_padded (u "2023-02-29 10:04:30") = None
  /\ strftime_ts (mkdt 2024 2 29 10 4 30) = u "2024-02-29 10:04:30".
Proof. vm_compute. auto. Qed.

Example timedelta_str_ex :
  timedelta_str (datetime_sub (mkdt 2024 1 1 10 4 30) (mkdt 2024 1 1 10 0 0))
    = u "0:04:30"
  /\ timedelta_str (datetime_sub (mkdt 2024 1 2 0 1 0) (mkdt 2024 1 1 23 59 0))
    = u "0:02:00"
  /\ timedelta_str (datetime_sub (mkdt 2024 3 1 12 0 0) (mkdt 2024 2 28 11 0 0))
    = u "2 days, 1:00:00"
  /\ timedelta_str (datetime_sub (mkdt 2024 1 1 10 0 0) (mkdt 2024 1 1 10 4 30))
    = u "-1 day, 23:55:30".
Proof. vm_compute. auto. Qed.

Example toordinal_ex : toordinal (mkdt 2024 1 1 0 0 0) = 738886%Z.
Proof. reflexivity. Qed.

(** *** Printing and parsing a timestamp *)

Lemma length_dec (w : nat) (n : N) : length (dec w n) = w.
Proof.
  revert n; induction w as [|w IH]; intros n; [reflexivity|].
  simpl. rewrite length_app, IH. simpl. lia.
Qed.

Lemma parse_dec_app (acc : N) (l1 l2 : str) :
  parse_dec acc (l1 ++ l2) =
  match parse_dec acc l1 with
  | Some a => parse_dec a l2
  | None => None
  end.
Proof.
  revert acc; induction l1 as [|c l1 IH]; intros acc; [reflexivity|].
  simpl. destruct (digit_val c); [apply IH|reflexivity].
Qed.

Lemma digit_val_digit (k : N) : k < 10 -> digit_val (48 + k) = Some k.
Proof.
  intros H. unfold digit_val.
  replace (48 <=? 48 + k) with true by (symmetry; apply N.leb_le; lia).
  replace (48 + k <=? 57) with true by (symmetry; apply N.leb_le; lia).
  simpl. f_equal. lia.
Qed.

Lemma parse_dec_dec (w : nat) :
  forall acc n,
    parse_dec acc (dec w n)
    = Some (acc * 10 ^ N.of_nat w + n mod 10 ^ N.of_nat w).
Proof.
  induction w as [|w IH]; intros acc n.
  - simpl. rewrite N.mod_1_r. f_equal. lia.
  - cbn [dec]. rewrite parse_dec_app, IH. cbn [parse_dec].
    rewrite digit_val_digit by (apply N.mod_lt; discriminate).
    f_equal. rewrite Nat2N.inj_succ, N.pow_succ_r'.
    rewrite (N.Div0.mod_mul_r n 10 (10 ^ N.of_nat w)). lia.
Qed.

Lemma field_dec (w : nat) (n : N) (rest : str) :
  n < 10 ^ N.of_nat w -> field w (dec w n ++ rest) = Some (n, rest).
Proof.
  intros H. unfold field.
  pose proof (length_dec w n) as Hl.
  assert (Ht : take w (dec w n ++ rest) = dec w n)
    by (rewrite <- Hl at 1; apply take_app_length).
  assert (Hd : drop w (dec w n ++ rest) = rest)
    by (rewrite <- Hl at 1; apply drop_app_length).
  rewrite Ht, Hd, Hl, Nat.eqb_refl, parse_dec_dec. simpl.
  rewrite N.mod_small by exact H. reflexivity.
Qed.

Lemma days_in_month_le (y m : Z) : (days_in_month y m <= 31)%Z.
Proof.
  unfold days_in_month. destruct ((m =? 2)%Z && is_leap y); [lia|].
  destruct (Z.to_nat m) as [|[|[|[|[|[|[|[|[|[|[|[|[|k]]]]]]]]]]]]];
    simpl; try lia.
  destruct k; simpl; lia.
Qed.

(** The parser of padded timestamps reads back what [strftime_ts] prints. *)
Lemma strptime_padded_strftime (d : datetime) :
  valid_datetime d = true -> strptime_padded (strftime_ts d) = Some d.
Proof.
  intros Hv. pose proof Hv as Hv'. unfold valid_datetime in Hv'.
  repeat (apply andb_true_iff in Hv' as [Hv' ?]).
  pose proof (days_in_month_le (Z.of_N (year d)) (Z.of_N (month d))).
  unfold strptime_padded, strftime_ts, strftime_date.
  change (u "-") with [45]. change (u " ") with [32]. change (u ":") with [58].
  rewrite <- (app_nil_r (dec 2 (second d))).
  repeat rewrite <- app_assoc. cbn [app].
  repeat (rewrite field_dec by (change (10 ^ N.of_nat 4) with 10000;
                                change (10 ^ N.of_nat 2) with 100; lia);
          cbn [mbind option_bind lit N.eqb Pos.eqb]).
  destruct d. simpl in *. rewrite Hv. reflexivity.
Qed.

(** ** Paths *)

Lemma uint_str_digits d : Forall (fun c => c <> 46) (uint_str d).
Proof. induction d; simpl; constructor; (discriminate || assumption). Qed.

Lemma show_Z_no_stop t : Forall (fun c => c <> 46) (show_Z t).
Proof.
  destruct t; unfold show_Z.
  - apply uint_str_digits.
  - apply uint_str_digits.
  - apply Forall_app. split; [|apply uint_str_digits].
    repeat constructor. discriminate.
Qed.

(** [replace] copies a prefix in which the first character of [old] does
    not occur. *)
Lemma replace_skip_prefix o old new (a rest : str) :
  Forall (fun c => c <> o) a ->
  replace (o :: old) new (a ++ rest) = a ++ replace (o :: old) new rest.
Proof.
  unfold replace.
  set (ml := fun t : str => match strip_prefix (o :: old) t with
                            | Some _ => Some (length (o :: old))
                            | None => None
                            end).
  induction a as [|c a IH]; intros H; [reflexivity|].
  apply Forall_cons in H as [Hc H]. rewrite <- !app_comm_cons.
  cbn [re_sub].
  assert (ml (c :: a ++ rest) = None) as ->
    by (unfold ml; cbn [strip_prefix]; destruct (N.eqb_spec o c); congruence).
  rewrite IH by assumption. reflexivity.
Qed.

Lemma preprocessed_file_eq t :
  preprocessed_file t
  = u "screenshots/screenshot_" ++ show_Z t ++ u "_preprocessed.png".
Proof.
  unfold preprocessed_file, screenshot_file, path_join, SCREENSHOT_DIR.
  change (u "screenshots" ++ u "/" ++ u "screenshot_" ++ show_Z t ++ u ".png")
    with (u "screenshots/screenshot_" ++ show_Z t ++ u ".png").
  change (u ".png") with (46 :: u "png").
  rewrite (replace_skip_prefix 46 _ _ (u "screenshots/screenshot_"))
    by (vm_compute; repeat constructor; discriminate).
  rewrite replace_skip_prefix by apply show_Z_no_stop.
  reflexivity.
Qed.

Lemma screenshot_file_eq t :
  screenshot_file t = u "screenshots/screenshot_" ++ show_Z t ++ u ".png".
Proof. reflexivity. Qed.

Lemma preprocessed_ne_screenshot t : preprocessed_file t <> screenshot_file t.
Proof.
  rewrite preprocessed_file_eq, screenshot_file_eq. intros H.
  apply app_inv_head in H. apply app_inv_head in H. discriminate.
Qed.

(** The four kinds of path are told apart by their thirteenth character. *)
Lemma screenshot_ne_report t d : screenshot_file t <> report_path d.
Proof. discriminate. Qed.

Lemma screenshot_ne_readable t d : screenshot_file t <> readable_path d.
Proof. discriminate. Qed.

Lemma preprocessed_ne_report t d : preprocessed_file t <> report_path d.
Proof. rewrite preprocessed_file_eq. discriminate. Qed.

Lemma preprocessed_ne_readable t d : preprocessed_file t <> readable_path d.
Proof. rewrite preprocessed_file_eq. discriminate. Qed.

Lemma report_ne_readable d d' : report_path d <> readable_path d'.
Proof. discriminate. Qed.

Lemma latest_ne_screenshot t : latest_path <> screenshot_file t.
Proof. discriminate. Qed.

Lemma latest_ne_preprocessed t : latest_path <> preprocessed_file t.
Proof. rewrite preprocessed_file_eq. discriminate. Qed.

Lemma latest_ne_readable d : latest_path <> readable_path d.
Proof. discriminate. Qed.

(** [combined_report.json] is not [combined_report_<date>.json], whatever
    the date: the names part at the character after [combined_report]. *)
Lemma latest_ne_report d : latest_path <> report_path d.
Proof. discriminate. Qed.

(** ** The report list *)

Section PipelineFacts.
Variable isalnum : N -> bool.
Variable isspace : N -> bool.
Variable strptime : str -> option datetime.

Local Abbreviation update_reports := (update_reports strptime).
Local Abbreviation format_entry := (format_entry isalnum isspace).
Local Abbreviation process_screenshot :=
  (process_screenshot isalnum isspace strptime).
Local Abbreviation run_all := (run_all isalnum isspace strptime).

Lemma update_reports_nil (r : report_t) : update_reports [] r = Ok [r].
Proof. reflexivity. Qed.

(** On a non-empty list the new report is appended with its
    [total_time]; nothing else changes. *)
Lemma update_reports_cons (f : report_t) (rs : list report_t) (r : report_t) :
  update_reports (f :: rs) r =
  match strptime (timestamp (analysis f)) with
  | None => Raise ValueError
  | Some d0 =>
      match strptime (timestamp (analysis r)) with
      | None => Raise ValueError
      | Some d1 =>
          Ok ((f :: rs)
              ++ [set_total_time (timedelta_str (datetime_sub d1 d0)) r])
      end
  end.
Proof.
  unfold update_reports.
  replace (1 <? length ((f :: rs) ++ [r]))%nat with true
    by (symmetry; apply Nat.ltb_lt; rewrite length_app; simpl; lia).
  replace (length ((f :: rs) ++ [r]) - 1)%nat
    with (length (f :: rs) + 0)%nat by (rewrite length_app; simpl; lia).
  change (((f :: rs) ++ [r]) !! 0%nat) with (Some f). cbv beta iota.
  destruct (strptime (timestamp (analysis f))); [|reflexivity].
  destruct (strptime (timestamp (analysis r))); [|reflexivity].
  rewrite alter_app_r. reflexivity.
Qed.

(** ** One run, case by case *)

Lemma bind_eq {A B} (m : M A) (k : A -> M B) fs :
  bind m k fs =
  match m fs with
  | (Ok a, fs') => k a fs'
  | (Raise x, fs') => (Raise x, fs')
  end.
Proof. reflexivity. Qed.

Lemma take_screenshot_eq (e : env) (fs : gmap str file) :
  take_screenshot e fs =
  match grab e with
  | None => (Raise CaptureError, fs)
  | Some img =>
      match disk e (screenshot_file (time_time e)) with
      | Written =>
          (Ok (screenshot_file (time_time e)),
           <[screenshot_file (time_time e):=Png img]> fs)
      | OpenFails => (Raise OSError, fs)
      | WriteFails =>
          (Raise OSError, <[screenshot_file (time_time e):=Partial]> fs)
      end
  end.
Proof.
  unfold take_screenshot, bind, lift, write_file, ret.
  change (path_join SCREENSHOT_DIR
            (u "screenshot_" ++ show_Z (time_time e) ++ u ".png"))
    with (screenshot_file (time_time e)).
  destruct (grab e); [|reflexivity].
  cbn [or_raise]. destruct (disk e _); reflexivity.
Qed.

Lemma analyze_screenshot_eq (e : env) (t : Z) (img : image)
    (fs : gmap str file) :
  fs !! screenshot_file t = Some (Png img) ->
  analyze_screenshot e (screenshot_file t) fs =
  match disk e (preprocessed_file t) with
  | OpenFails => (Raise OSError, fs)
  | WriteFails => (Raise OSError, <[preprocessed_file t:=Partial]> fs)
  | Written =>
      match readtext e (enhance e img) with
      | None =>
          (Raise OCRError, <[preprocessed_file t:=Png (enhance e img)]> fs)
      | Some words =>
          (Ok (new_report e words),
           delete (preprocessed_file t)
             (<[preprocessed_file t:=Png (enhance e img)]> fs))
      end
  end.
Proof.
  intros Hshot.
  unfold analyze_screenshot, preprocess_image.
  fold (preprocessed_file t).
  rewrite !bind_eq. unfold image_open at 1. rewrite Hshot.
  rewrite bind_eq. unfold write_file at 1.
  destruct (disk e (preprocessed_file t)); try reflexivity.
  unfold ret at 1. rewrite bind_eq. unfold image_open at 1.
  rewrite lookup_insert_eq. rewrite bind_eq. unfold lift at 1.
  destruct (readtext e (enhance e img)) as [words|]; [|reflexivity].
  cbn [or_raise]. rewrite bind_eq. unfold path_exists at 1.
  rewrite lookup_insert_eq. rewrite bind_eq. unfold os_remove at 1.
  rewrite lookup_insert_eq. reflexivity.
Qed.

Lemma generate_readable_report_eq (e : env) (rs : list report_t)
    (fs : gmap str file) :
  generate_readable_report isalnum isspace e rs fs =
  match for_each (format_entry e (get_username e)) rs with
  | Raise x => (Raise x, fs)
  | Ok entries =>
      write_file e (readable_path (strftime_date (now_readable e)))
        (Text (join [10] entries)) fs
  end.
Proof.
  unfold generate_readable_report. rewrite bind_eq. unfold lift.
  destruct (for_each _ rs); reflexivity.
Qed.

(** The end of [process_screenshot], from the write of the JSON file. *)
Lemma store_tail (e : env) (img : image) (words : list str)
    (rs : list report_t) (fs3 : gmap str file) :
  let shot := screenshot_file (time_time e) in
  let rp := report_path (strftime_date (now_store e)) in
  let txt := readable_path (strftime_date (now_readable e)) in
  fs3 !! shot = Some (Png img) ->
  (let* _ := write_file e rp (Json rs) in
   let* _ := generate_readable_report isalnum isspace e rs in
   let* _ := os_remove shot in
   ret (List.last rs (new_report e words))) fs3 =
  match disk e rp with
  | OpenFails => (Raise OSError, fs3)
  | WriteFails => (Raise OSError, <[rp:=Partial]> fs3)
  | Written =>
      let fs4 := <[rp:=Json rs]> fs3 in
      match for_each (format_entry e (get_username e)) rs with
      | Raise x => (Raise x, fs4)
      | Ok entries =>
          match disk e txt with
          | OpenFails => (Raise OSError, fs4)
          | WriteFails => (Raise OSError, <[txt:=Partial]> fs4)
          | Written =>
              (Ok (List.last rs (new_report e words)),
               delete shot (<[txt:=Text (join [10] entries)]> fs4))
          end
      end
  end.
Proof.
  intros shot rp txt Hshot.
  rewrite bind_eq. unfold write_file at 1.
  destruct (disk e rp); try reflexivity.
  rewrite bind_eq, generate_readable_report_eq. fold txt.
  destruct (for_each _ rs) as [entries|x]; [|reflexivity].
  unfold write_file at 1.
  destruct (disk e txt); try reflexivity.
  rewrite bind_eq. unfold os_remove at 1.
  rewrite lookup_insert_ne by apply not_eq_sym, screenshot_ne_readable.
  rewrite lookup_insert_ne by apply not_eq_sym, screenshot_ne_report.
  rewrite Hshot. reflexivity.
Qed.

Lemma process_screenshot_cases (e : env) (fs : gmap str file) :
  let shot := screenshot_file (time_time e) in
  let pre := preprocessed_file (time_time e) in
  let rp := report_path (strftime_date (now_store e)) in
  let txt := readable_path (strftime_date (now_readable e)) in
  process_screenshot e fs =
  match grab e with
  | None => (Raise CaptureError, fs)
  | Some img =>
  match disk e shot with
  | OpenFails => (Raise OSError, fs)
  | WriteFails => (Raise OSError, <[shot:=Partial]> fs)
  | Written =>
  let fs1 := <[shot:=Png img]> fs in
  match disk e pre with
  | OpenFails => (Raise OSError, fs1)
  | WriteFails => (Raise OSError, <[pre:=Partial]> fs1)
  | Written =>
  match readtext e (enhance e img) with
  | None => (Raise OCRError, <[pre:=Png (enhance e img)]> fs1)
  | Some words =>
  let fs3 := delete pre (<[pre:=Png (enhance e img)]> fs1) in
  match stored fs (strftime_date (now_store e)) with
  | None => (Raise JSONDecodeError, fs3)
  | Some old =>
  match update_reports old (new_report e words) with
  | Raise x => (Raise x, fs3)
  | Ok rs =>
  match disk e rp with
  | OpenFails => (Raise OSError, fs3)
  | WriteFails => (Raise OSError, <[rp:=Partial]> fs3)
  | Written =>
  let fs4 := <[rp:=Json rs]> fs3 in
  match for_each (format_entry e (get_username e)) rs with
  | Raise x => (Raise x, fs4)
  | Ok entries =>
  match disk e txt with
  | OpenFails => (Raise OSError, fs4)
  | WriteFails => (Raise OSError, <[txt:=Partial]> fs4)
  | Written =>
      (Ok (List.last rs (new_report e words)),
       delete shot (<[txt:=Text (join [10] entries)]> fs4))
  end end end end end end end end end.
Proof.
  intros shot pre rp txt.
  unfold process_screenshot.
  rewrite bind_eq, take_screenshot_eq. fold shot.
  destruct (grab e) as [img|]; [|reflexivity].
  destruct (disk e shot); try reflexivity.
  rewrite bind_eq.
  rewrite (analyze_screenshot_eq e (time_time e) img)
    by apply lookup_insert_eq.
  fold pre shot.
  destruct (disk e pre); try reflexivity.
  destruct (readtext e (enhance e img)) as [words|]; [|reflexivity].
  set (fs3 := delete pre _).
  assert (Hrp : fs3 !! rp = fs !! rp).
  { unfold fs3. rewrite lookup_delete_ne by apply preprocessed_ne_report.
    rewrite lookup_insert_ne by apply preprocessed_ne_report.
    apply lookup_insert_ne, screenshot_ne_report. }
  assert (Hshot : fs3 !! shot = Some (Png img)).
  { unfold fs3. rewrite lookup_delete_ne by apply preprocessed_ne_screenshot.
    rewrite lookup_insert_ne by apply preprocessed_ne_screenshot.
    apply lookup_insert_eq. }
  rewrite bind_eq. unfold path_exists at 1. fold rp. rewrite Hrp.
  unfold stored. fold rp.
  destruct (fs !! rp) as [[img'|old|s|]|] eqn:Efs;
    rewrite bind_eq; unfold json_load, ret; rewrite ?Hrp, ?Efs;
    try reflexivity.
  - rewrite bind_eq. unfold lift at 1.
    destruct (update_reports old (new_report e words)) as [rs|x];
      [|reflexivity].
    apply (store_tail e img words rs fs3 Hshot).
  - rewrite bind_eq. unfold lift at 1.
    destruct (update_reports [] (new_report e words)) as [rs|x];
      [|reflexivity].
    apply (store_tail e img words rs fs3 Hshot).
Qed.
(** *** A run that returns *)

Lemma process_screenshot_Ok (e : env) (fs fs' : gmap str file) (r : report_t) :
  process_screenshot e fs = (Ok r, fs') ->
  exists img words old rs entries,
    grab e = Some img
    /\ readtext e (enhance e img) = Some words
    /\ stored fs (strftime_date (now_store e)) = Some old
    /\ update_reports old (new_report e words) = Ok rs
    /\ for_each (format_entry e (get_username e)) rs = Ok entries
    /\ r = List.last rs (new_report e words)
    /\ fs' =
       delete (screenshot_file (time_time e))
         (<[readable_path (strftime_date (now_readable e)):=
              Text (join [10] entries)]>
            (<[report_path (strftime_date (now_store e)):=Json rs]>
               (delete (preprocessed_file (time_time e))
                  (<[preprocessed_file (time_time e):=Png (enhance e img)]>
                     (<[screenshot_file (time_time e):=Png img]> fs))))).
Proof.
  rewrite process_screenshot_cases. cbv zeta.
  destruct (grab e) as [img|]; [|discriminate].
  destruct (disk e (screenshot_file _)); try discriminate.
  destruct (disk e (preprocessed_file _)); try discriminate.
  destruct (readtext e (enhance e img)) as [words|] eqn:Hw; [|discriminate].
  destruct (stored fs _) as [old|] eqn:Hold; [|discriminate].
  destruct (update_reports old _) as [rs|] eqn:Hup; [|discriminate].
  destruct (disk e (report_path _)); try discriminate.
  destruct (for_each _ rs) as [entries|] eqn:Hen; [|discriminate].
  destruct (disk e (readable_path _)); try discriminate.
  intros [= <- <-]. exists img, words, old, rs, entries.
  repeat split; assumption.
Qed.

(** What [update_reports] returns: the old list, then the new report,
    which has a [total_time] exactly when the old list is not empty. *)
Lemma update_reports_Ok (old rs : list report_t) (new : report_t) :
  update_reports old new = Ok rs ->
  exists r,
    rs = old ++ [r]
    /\ analysis r = analysis new
    /\ match old with
       | [] => r = new
       | first :: _ =>
           exists d0 d1,
             strptime (timestamp (analysis first)) = Some d0
             /\ strptime (timestamp (analysis new)) = Some d1
             /\ total_time r = Some (timedelta_str (datetime_sub d1 d0))
       end.
Proof.
  destruct old as [|f old].
  - rewrite update_reports_nil. intros [= <-]. exists new. auto.
  - rewrite update_reports_cons.
    destruct (strptime (timestamp (analysis f))) as [d0|]; [|discriminate].
    destruct (strptime (timestamp (analysis new))) as [d1|]; [|discriminate].
    intros [= <-]. eexists. split; [reflexivity|]. split; [reflexivity|].
    exists d0, d1. auto.
Qed.

(** The stored sequence after a run that returns: the sequence before,
    then the returned report. *)
Lemma process_screenshot_stored (e : env) (fs fs' : gmap str file)
    (r : report_t) :
  process_screenshot e fs = (Ok r, fs') ->
  exists old a,
    stored fs (strftime_date (now_store e)) = Some old
    /\ captured e = Some a
    /\ analysis r = a
    /\ fs' !! report_path (strftime_date (now_store e))
       = Some (Json (old ++ [r]))
    /\ match old with
       | [] => total_time r = None
       | first :: _ =>
           exists d0 d1,
             strptime (timestamp (analysis first)) = Some d0
             /\ strptime (timestamp a) = Some d1
             /\ total_time r = Some (timedelta_str (datetime_sub d1 d0))
       end.
Proof.
  intros H.
  apply process_screenshot_Ok in H
    as (img & words & old & rs & entries & Hg & Hr & Hold & Hup & _ & -> & ->).
  apply update_reports_Ok in Hup as (r & -> & Ha & Hr').
  exists old, (analysis (new_report e words)).
  rewrite last_last.
  split; [exact Hold|]. split; [|split; [exact Ha|split]].
  - unfold captured. rewrite Hg. simpl. rewrite Hr. reflexivity.
  - rewrite lookup_delete_ne by apply screenshot_ne_report.
    rewrite lookup_insert_ne by apply not_eq_sym, report_ne_readable.
    apply lookup_insert_eq.
  - destruct old; [subst r; reflexivity|exact Hr'].
Qed.

(** *** A run returns when nothing around it fails *)

Lemma update_reports_returns (old : list report_t) (new : report_t) :
  (forall r, r ∈ old ++ [new] ->
             is_Some (strptime (timestamp (analysis r)))) ->
  exists rs, update_reports old new = Ok rs.
Proof.
  intros H. destruct old as [|f old].
  - rewrite update_reports_nil. eauto.
  - rewrite update_reports_cons.
    destruct (H f) as [d0 ->]; [left|].
    destruct (H new) as [d1 ->]; [|eauto].
    apply elem_of_app. right. left.
Qed.

Lemma for_each_returns {A B} (f : A -> result B) (l : list A) :
  (forall a, exists b, f a = Ok b) -> exists bs, for_each f l = Ok bs.
Proof.
  intros H. induction l as [|a l [bs IH]]; [simpl; eauto|].
  destruct (H a) as [b Hb]. simpl. rewrite Hb, IH. eauto.
Qed.

Lemma format_entry_returns (e : env) (username : str) (r : report_t) :
  (forall t, is_Some (summarizer e t)) ->
  (forall t, is_Some (correct e t)) ->
  exists entry, format_entry e username r = Ok entry.
Proof.
  intros Hs Hc. unfold format_entry.
  destruct (Hs (preprocess_text isalnum isspace (text (analysis r))))
    as [resp ->].
  cbn [or_raise]. destruct resp as [|summarized_text resp]; [eauto|].
  unfold frame_sentence. destruct (Hc summarized_text) as [framed ->].
  cbn [or_raise]. eauto.
Qed.

(** When the capture, the OCR, the summariser, the corrector and the disk
    all work, the day's file is absent or holds a sequence, and the
    timestamps involved parse, the run returns. *)
Lemma process_screenshot_returns (e : env) (fs : gmap str file)
    (img : image) (words : list str) (old : list report_t) :
  grab e = Some img ->
  readtext e (enhance e img) = Some words ->
  (forall path, disk e path = Written) ->
  (forall t, is_Some (summarizer e t)) ->
  (forall t, is_Some (correct e t)) ->
  stored fs (strftime_date (now_store e)) = Some old ->
  (forall r, r ∈ old ++ [new_report e words] ->
             is_Some (strptime (timestamp (analysis r)))) ->
  exists r fs', process_screenshot e fs = (Ok r, fs').
Proof.
  intros Hg Hr Hd Hs Hc Hold Hp.
  rewrite process_screenshot_cases. cbv zeta.
  rewrite Hg, !Hd, Hr, Hold.
  destruct (update_reports_returns old _ Hp) as [rs ->].
  destruct (for_each_returns (format_entry e (get_username e)) rs)
    as [entries ->]; [|eauto].
  intros r. apply format_entry_returns; assumption.
Qed.

(** *** Runs one after the other *)

Lemma stored_lookup (fs : gmap str file) (date : str) (rs : list report_t) :
  fs !! report_path date = Some (Json rs) -> stored fs date = Some rs.
Proof. unfold stored. intros ->. reflexivity. Qed.

Lemma stored_absent (fs : gmap str file) (date : str) :
  fs !! report_path date = None -> stored fs date = Some [].
Proof. unfold stored. intros ->. reflexivity. Qed.

Lemma stored_nonempty (fs : gmap str file) (date : str) (rs : list report_t) :
  stored fs date = Some rs -> rs <> [] ->
  fs !! report_path date = Some (Json rs).
Proof.
  unfold stored. destruct (fs !! report_path date) as [[]|]; congruence.
Qed.

Lemma day_ok_snoc (old : list report_t) (r : report_t) :
  day_ok strptime old ->
  match old with
  | [] => total_time r = None
  | first :: _ => elapsed_since strptime first r
  end ->
  day_ok strptime (old ++ [r]).
Proof.
  destruct old as [|f rest]; simpl.
  - intros _ H. split; [exact H|constructor].
  - intros [Hf Hrest] H. split; [exact Hf|].
    apply Forall_app. split; [exact Hrest|]. repeat constructor. exact H.
Qed.

Lemma run_all_stored (es : list env) :
  forall (fs fs' : gmap str file) (date : str) (old : list report_t),
    Forall (fun e => strftime_date (now_store e) = date) es ->
    stored fs date = Some old ->
    run_all es fs = Ok fs' ->
    exists news,
      stored fs' date = Some (old ++ news)
      /\ (day_ok strptime old -> day_ok strptime (old ++ news))
      /\ Forall2 (fun e r => captured e = Some (analysis r)) es news.
Proof.
  induction es as [|e es IH]; intros fs fs' date old Hd Hold Hrun.
  - injection Hrun as <-. exists []. rewrite app_nil_r. auto.
  - apply Forall_cons in Hd as [He Hd]. simpl in Hrun.
    destruct (process_screenshot e fs) as [[r|x] fs1] eqn:Hstep;
      [|discriminate].
    apply process_screenshot_stored in Hstep
      as (old' & a & Hold' & Hc & Ha & Hfs1 & Hr).
    rewrite He in Hold', Hfs1.
    assert (old' = old) as -> by congruence.
    apply stored_lookup in Hfs1.
    destruct (IH fs1 fs' date (old ++ [r]) Hd Hfs1 Hrun)
      as (news & H1 & H2 & H3).
    exists (r :: news). rewrite <- app_assoc in H1, H2.
    split; [exact H1|]. split; [|constructor; [congruence|exact H3]].
    intros Hok. apply H2, day_ok_snoc; [exact Hok|].
    destruct old as [|f rest]; [exact Hr|].
    destruct Hr as (d0 & d1 & H0 & H1' & H2'). exists d0, d1.
    rewrite Ha. auto.
Qed.

(** C6. For all sequences of N >= 1 appends to the same date, the
    stored report consists of the records it held before (none, when
    there was no file) followed by exactly N records, in append order:
    the i-th new record holds the text and timestamp captured by the
    i-th run.  No append modifies, reorders or deletes a stored
    record. *)
Theorem appends_kept_in_order (es : list env) (fs fs' : gmap str file)
    (date : str) (old : list report_t) :
  Forall (fun e => strftime_date (now_store e) = date) es ->
  es <> [] ->
  stored fs date = Some old ->
  run_all es fs = Ok fs' ->
  exists news,
    fs' !! report_path date = Some (Json (old ++ news))
    /\ length news = length es
    /\ map (fun r => Some (analysis r)) news = map captured es.
Proof.
  intros Hd Hne Hold Hrun.
  destruct (run_all_stored es fs fs' date old Hd Hold Hrun)
    as (news & H1 & _ & H3).
  exists news.
  assert (Hlen : length news = length es)
    by (symmetry; eapply Forall2_length, H3).
  split; [|split; [exact Hlen|]].
  - apply stored_nonempty; [exact H1|].
    destruct news; [destruct es; simpl in Hlen; congruence|].
    destruct old; discriminate.
  - clear -H3. induction H3 as [|e r es news H _ IH]; [reflexivity|].
    simpl. rewrite H, IH. reflexivity.
Qed.

(** The day's sequence after runs that all return, when the day had no
    file before. *)
Lemma run_all_fresh (es : list env) (fs fs' : gmap str file) (date : str) :
  Forall (fun e => strftime_date (now_store e) = date) es ->
  fs !! report_path date = None ->
  run_all es fs = Ok fs' ->
  exists rs,
    stored fs' date = Some rs
    /\ length rs = length es
    /\ day_ok strptime rs.
Proof.
  intros Hd Hfs Hrun. apply stored_absent in Hfs.
  destruct (run_all_stored es fs fs' date [] Hd Hfs Hrun)
    as (news & H1 & H2 & H3).
  exists news. split; [exact H1|]. split; [|apply H2; exact I].
  symmetry. eapply Forall2_length, H3.
Qed.

(** C7. Appending the first record of a day gives a one-record report
    without [total_time]; the second append puts the field on the second
    record, and the first still has none. *)
Theorem first_append_has_no_total_time (e1 e2 : env)
    (fs fs1 fs2 : gmap str file) (r1 r2 : report_t) (date : str) :
  strftime_date (now_store e1) = date ->
  strftime_date (now_store e2) = date ->
  fs !! report_path date = None ->
  process_screenshot e1 fs = (Ok r1, fs1) ->
  process_screenshot e2 fs1 = (Ok r2, fs2) ->
  fs1 !! report_path date = Some (Json [r1])
  /\ total_time r1 = None
  /\ fs2 !! report_path date = Some (Json [r1; r2])
  /\ is_Some (total_time r2).
Proof.
  intros <- He2 Hfs H1 H2.
  apply process_screenshot_stored in H1 as (old & a & Hold & _ & _ & Hfs1 & Hr1).
  rewrite (stored_absent _ _ Hfs) in Hold. injection Hold as <-.
  apply process_screenshot_stored in H2 as (old & b & Hold & _ & _ & Hfs2 & Hr2).
  rewrite He2 in Hold, Hfs2.
  rewrite (stored_lookup _ _ _ Hfs1) in Hold. injection Hold as <-.
  repeat split; try assumption.
  destruct Hr2 as (d0 & d1 & _ & _ & ->). eauto.
Qed.

(** C10. Whatever the number of appends to a date, the first record of
    the day's sequence has no [total_time]: a run changes the stored
    sequence only by adding one record at its end, and that record has a
    [total_time] only when it is not the first. *)
Theorem first_record_never_has_total_time (es : list env)
    (fs fs' : gmap str file) (date : str) :
  Forall (fun e => strftime_date (now_store e) = date) es ->
  fs !! report_path date = None ->
  run_all es fs = Ok fs' ->
  (exists rs,
     stored fs' date = Some rs
     /\ length rs = length es
     /\ forall first, rs !! 0%nat = Some first -> total_time first = None)
  /\ (forall e fs1 fs2 r,
        process_screenshot e fs1 = (Ok r, fs2) ->
        exists old,
          stored fs1 (strftime_date (now_store e)) = Some old
          /\ fs2 !! report_path (strftime_date (now_store e))
             = Some (Json (old ++ [r]))
          /\ (is_Some (total_time r) -> (2 <= length (old ++ [r]))%nat)).
Proof.
  intros Hd Hfs Hrun. split.
  - destruct (run_all_fresh es fs fs' date Hd Hfs Hrun) as (rs & H1 & H2 & H3).
    exists rs. split; [exact H1|]. split; [exact H2|].
    destruct rs as [|f rest]; intros first [= <-]. apply H3.
  - intros e fs1 fs2 r Hstep.
    apply process_screenshot_stored in Hstep
      as (old & a & Hold & _ & _ & Hfs2 & Hr).
    exists old. split; [exact Hold|]. split; [exact Hfs2|].
    destruct old as [|f rest].
    + rewrite Hr. intros [s [=]].
    + intros _. rewrite length_app. simpl. lia.
Qed.

(** C1 (as the code has it). After two or more appends to the same
    date, the first record has no [total_time] and every later record,
    the last one included, carries the time elapsed between the first
    record's timestamp and its own: an append sets the field on the new
    last record and leaves the former last record as it was. *)
Theorem later_records_keep_total_time (es : list env)
    (fs fs' : gmap str file) (date : str) :
  Forall (fun e => strftime_date (now_store e) = date) es ->
  (2 <= length es)%nat ->
  fs !! report_path date = None ->
  run_all es fs = Ok fs' ->
  exists first rest,
    fs' !! report_path date = Some (Json (first :: rest))
    /\ length (first :: rest) = length es
    /\ total_time first = None
    /\ Forall (elapsed_since strptime first) rest.
Proof.
  intros Hd Hlen Hfs Hrun.
  destruct (run_all_fresh es fs fs' date Hd Hfs Hrun) as (rs & H1 & H2 & H3).
  destruct rs as [|first rest]; [simpl in H2; lia|].
  exists first, rest. destruct H3 as [Hf Hrest].
  split; [apply stored_nonempty; [exact H1|discriminate]|]. auto.
Qed.
(** *** The elapsed time *)

(** [datetime_sub] is the difference of the two instants, in seconds. *)
Lemma datetime_sub_seconds (a b : datetime) :
  total_seconds (datetime_sub a b) = (epoch_seconds a - epoch_seconds b)%Z.
Proof.
  unfold total_seconds, datetime_sub, timedelta_new, epoch_seconds.
  cbn [days seconds].
  pose proof (Z.div_mod (second_of_day a - second_of_day b) 86400).
  lia.
Qed.

Lemma captured_timestamp (e : env) (a : analysis_t) :
  captured e = Some a -> timestamp a = strftime_ts (localtime e).
Proof.
  unfold captured. destruct (grab e) as [img|]; [|discriminate]. simpl.
  destruct (readtext e (enhance e img)); [|discriminate].
  intros [= <-]. reflexivity.
Qed.

(** C3 (as the code has it). An append that brings the day's sequence
    to two or more records stores on the new last record, as
    [total_time], the text [str] gives for the new record's timestamp
    minus the timestamp of the first record of the day. *)
Theorem total_time_is_elapsed (e : env) (fs fs' : gmap str file)
    (r first : report_t) (rest : list report_t) :
  fs !! report_path (strftime_date (now_store e))
    = Some (Json (first :: rest)) ->
  process_screenshot e fs = (Ok r, fs') ->
  exists d0 d1,
    strptime (timestamp (analysis first)) = Some d0
    /\ strptime (timestamp (analysis r)) = Some d1
    /\ timestamp (analysis r) = strftime_ts (localtime e)
    /\ fs' !! report_path (strftime_date (now_store e))
       = Some (Json ((first :: rest) ++ [r]))
    /\ total_time r = Some (timedelta_str (datetime_sub d1 d0))
    /\ total_seconds (datetime_sub d1 d0)
       = (epoch_seconds d1 - epoch_seconds d0)%Z.
Proof.
  intros Hfs Hrun.
  apply process_screenshot_stored in Hrun
    as (old & a & Hold & Hc & Ha & Hfs' & Hr).
  rewrite (stored_lookup _ _ _ Hfs) in Hold. injection Hold as <-.
  destruct Hr as (d0 & d1 & H0 & H1 & H2). exists d0, d1.
  rewrite Ha. repeat split; try assumption.
  - apply captured_timestamp, Hc.
  - apply datetime_sub_seconds.
Qed.

(** *** What a run touches *)

Lemma process_screenshot_frame (e : env) (fs fs' : gmap str file)
    (out : result report_t) (p : str) :
  process_screenshot e fs = (out, fs') ->
  p <> screenshot_file (time_time e) ->
  p <> preprocessed_file (time_time e) ->
  p <> report_path (strftime_date (now_store e)) ->
  p <> readable_path (strftime_date (now_readable e)) ->
  fs' !! p = fs !! p.
Proof.
  rewrite process_screenshot_cases. cbv zeta. intros H H1 H2 H3 H4.
  repeat match type of H with
         | context [match ?x with _ => _ end] => destruct x
         end;
    injection H as <- <-;
    repeat first
      [ rewrite lookup_insert_ne by (apply not_eq_sym; assumption)
      | rewrite lookup_delete_ne by (apply not_eq_sym; assumption) ];
    reflexivity.
Qed.

Lemma get_latest_report_absent (fs : gmap str file) :
  fs !! latest_path = None ->
  get_latest_report fs
  = (Ok (ErrorBody (u "No reports available"), 404%Z), fs).
Proof.
  intros H. unfold get_latest_report. fold latest_path.
  rewrite bind_eq. unfold path_exists. rewrite H. reflexivity.
Qed.

(** C2 (what the code does). After a run that stored the day's report,
    [GET /report] still answers 404: it looks for
    [combined_report.json], and the run wrote
    [combined_report_<date>.json]. *)
Theorem report_endpoint_misses_daily_file (e : env)
    (fs fs' : gmap str file) (r : report_t) :
  fs !! latest_path = None ->
  process_screenshot e fs = (Ok r, fs') ->
  (exists old,
     fs' !! report_path (strftime_date (now_store e))
     = Some (Json (old ++ [r])))
  /\ get_latest_report fs'
     = (Ok (ErrorBody (u "No reports available"), 404%Z), fs').
Proof.
  intros Hfs Hrun. split.
  - apply process_screenshot_stored in Hrun
      as (old & a & _ & _ & _ & H & _). eauto.
  - apply get_latest_report_absent.
    rewrite (process_screenshot_frame e fs fs' (Ok r) latest_path Hrun);
      auto using latest_ne_screenshot, latest_ne_preprocessed,
        latest_ne_report, latest_ne_readable.
Qed.

(** C4 (as the code has it). The day's sequence is written in place.
    The run touches no path but its four files: there is no temporary
    file and no rename.  Once the run has reached the write (the capture
    and the OCR returned, the day's file was loaded and the new record
    appended to the list), the outcome of the write decides the partition
    file: if the file cannot be opened, it is left as it was; if the write
    fails after the file was opened, it is left partially written and its
    previous content is gone; otherwise it holds the whole new sequence,
    the old records followed by the new one, whatever happens later in the
    run. *)
Theorem report_written_in_place (e : env) (fs fs' : gmap str file)
    (out : result report_t) (img : image) (words : list str)
    (old rs : list report_t) :
  process_screenshot e fs = (out, fs') ->
  grab e = Some img ->
  disk e (screenshot_file (time_time e)) = Written ->
  disk e (preprocessed_file (time_time e)) = Written ->
  readtext e (enhance e img) = Some words ->
  stored fs (strftime_date (now_store e)) = Some old ->
  update_reports old (new_report e words) = Ok rs ->
  (forall p,
     p <> screenshot_file (time_time e) ->
     p <> preprocessed_file (time_time e) ->
     p <> report_path (strftime_date (now_store e)) ->
     p <> readable_path (strftime_date (now_readable e)) ->
     fs' !! p = fs !! p)
  /\ match disk e (report_path (strftime_date (now_store e))) with
     | OpenFails =>
         out = Raise OSError
         /\ fs' !! report_path (strftime_date (now_store e))
            = fs !! report_path (strftime_date (now_store e))
     | WriteFails =>
         out = Raise OSError
         /\ fs' !! report_path (strftime_date (now_store e)) = Some Partial
         /\ fs' !! report_path (strftime_date (now_store e))
            <> fs !! report_path (strftime_date (now_store e))
     | Written =>
         fs' !! report_path (strftime_date (now_store e)) = Some (Json rs)
         /\ exists r,
              rs = old ++ [r]
              /\ analysis r = analysis (new_report e words)
     end.
Proof.
  intros Hrun Hg Hd1 Hd2 Hr Hold Hup. split.
  - intros p. apply (process_screenshot_frame e fs fs' out p Hrun).
  - revert Hrun. rewrite process_screenshot_cases. cbv zeta.
    rewrite Hg, Hd1, Hd2, Hr, Hold, Hup.
    set (rp := report_path (strftime_date (now_store e))) in *.
    set (shot := screenshot_file (time_time e)).
    set (pre := preprocessed_file (time_time e)).
    set (txt := readable_path (strftime_date (now_readable e))).
    assert (N1 : shot <> rp) by apply screenshot_ne_report.
    assert (N2 : pre <> rp) by apply preprocessed_ne_report.
    assert (N3 : txt <> rp) by apply not_eq_sym, report_ne_readable.
    assert (Hfs3 : delete pre (<[pre:=Png (enhance e img)]>
                                 (<[shot:=Png img]> fs)) !! rp = fs !! rp).
    { rewrite lookup_delete_ne by exact N2.
      rewrite !lookup_insert_ne by assumption. reflexivity. }
    destruct (disk e rp).
    + intros Hrun. split.
      * destruct (for_each _ rs) as [entries|];
          [|injection Hrun as <- <-; apply lookup_insert_eq].
        destruct (disk e txt); injection Hrun as <- <-;
          rewrite ?lookup_delete_ne by exact N1;
          rewrite ?(lookup_insert_ne _ txt) by exact N3;
          apply lookup_insert_eq.
      * apply update_reports_Ok in Hup as (r & -> & Ha & _). eauto.
    + intros [= <- <-]. split; [reflexivity|exact Hfs3].
    + intros [= <- <-]. split; [reflexivity|].
      rewrite lookup_insert_eq. split; [reflexivity|].
      unfold stored in Hold. fold rp in Hold.
      destruct (fs !! rp) as [[]|]; congruence.
Qed.
(** C5 (as the code has it). A run that returns has removed the
    screenshot file and the preprocessed image.  A run that raises cleans
    nothing up: once the screenshot is saved, every failure leaves the
    screenshot file in place, and an OCR failure leaves the preprocessed
    image as well. *)
Theorem artifacts_removed_on_success (e : env) (fs fs' : gmap str file)
    (out : result report_t) :
  process_screenshot e fs = (out, fs') ->
  (forall r,
     out = Ok r ->
     fs' !! screenshot_file (time_time e) = None
     /\ fs' !! preprocessed_file (time_time e) = None)
  /\ (forall x img,
        out = Raise x ->
        grab e = Some img ->
        disk e (screenshot_file (time_time e)) = Written ->
        fs' !! screenshot_file (time_time e) = Some (Png img))
  /\ (forall img,
        grab e = Some img ->
        disk e (screenshot_file (time_time e)) = Written ->
        disk e (preprocessed_file (time_time e)) = Written ->
        readtext e (enhance e img) = None ->
        out = Raise OCRError
        /\ fs' !! preprocessed_file (time_time e)
           = Some (Png (enhance e img))).
Proof.
  intros Hrun.
  pose proof (preprocessed_ne_screenshot (time_time e)) as N0.
  pose proof (screenshot_ne_report (time_time e)
                (strftime_date (now_store e))) as N1.
  pose proof (screenshot_ne_readable (time_time e)
                (strftime_date (now_readable e))) as N2.
  pose proof (preprocessed_ne_report (time_time e)
                (strftime_date (now_store e))) as N3.
  pose proof (preprocessed_ne_readable (time_time e)
                (strftime_date (now_readable e))) as N4.
  split; [|split].
  - intros r ->.
    apply process_screenshot_Ok in Hrun
      as (img & words & old & rs & entries & _ & _ & _ & _ & _ & _ & ->).
    split; [apply lookup_delete_eq|].
    rewrite lookup_delete_ne by (apply not_eq_sym; exact N0).
    rewrite !lookup_insert_ne by (apply not_eq_sym; assumption).
    apply lookup_delete_eq.
  - intros x img -> Hg Hd. revert Hrun.
    rewrite process_screenshot_cases. cbv zeta. rewrite Hg, Hd.
    intros H.
    repeat match type of H with
           | context [match ?x with _ => _ end] => destruct x
           end;
      injection H as H <-; try discriminate H;
      repeat first
        [ rewrite lookup_insert_ne by (apply not_eq_sym; assumption)
        | rewrite lookup_insert_ne by assumption
        | rewrite lookup_delete_ne by assumption ];
      apply lookup_insert_eq.
  - intros img Hg Hd Hp Hr. revert Hrun.
    rewrite process_screenshot_cases. cbv zeta. rewrite Hg, Hd, Hp, Hr.
    intros [= <- <-]. split; [reflexivity|apply lookup_insert_eq].
Qed.

(** *** The readable report *)

Lemma for_each_Forall2 {A B} (f : A -> result B) (l : list A) (bs : list B) :
  for_each f l = Ok bs -> Forall2 (fun a b => f a = Ok b) l bs.
Proof.
  revert bs; induction l as [|a l IH]; intros bs; simpl.
  - intros [= <-]. constructor.
  - destruct (f a) as [b|] eqn:Hb; [|discriminate].
    destruct (for_each f l) as [bs'|]; [|discriminate].
    intros [= <-]. constructor; auto.
Qed.

(** C9 (as the code has it). After a run that returns, the readable
    report of the day holds exactly one formatted entry per record of
    the stored sequence, in sequence order, the entries joined by one
    line feed; the file is written anew, whatever it held before. *)
Theorem readable_report_rebuilt (e : env) (fs fs' : gmap str file)
    (r : report_t) :
  process_screenshot e fs = (Ok r, fs') ->
  exists rs entries,
    fs' !! report_path (strftime_date (now_store e)) = Some (Json rs)
    /\ Forall2 (fun report entry =>
                  format_entry e (get_username e) report = Ok entry)
         rs entries
    /\ fs' !! readable_path (strftime_date (now_readable e))
       = Some (Text (join [10] entries)).
Proof.
  intros Hrun.
  apply process_screenshot_Ok in Hrun
    as (img & words & old & rs & entries & _ & _ & _ & _ & He & _ & ->).
  exists rs, entries. split; [|split].
  - rewrite lookup_delete_ne by apply screenshot_ne_report.
    rewrite lookup_insert_ne by apply not_eq_sym, report_ne_readable.
    apply lookup_insert_eq.
  - apply for_each_Forall2, He.
  - rewrite lookup_delete_ne by apply screenshot_ne_readable.
    apply lookup_insert_eq.
Qed.

(** *** Where an exception comes from *)

Lemma update_reports_Raise (old : list report_t) (new : report_t) (x : exn) :
  update_reports old new = Raise x ->
  x = ValueError
  /\ exists first rest,
       old = first :: rest
       /\ (strptime (timestamp (analysis first)) = None
           \/ strptime (timestamp (analysis new)) = None).
Proof.
  destruct old as [|f rest]; [rewrite update_reports_nil; discriminate|].
  rewrite update_reports_cons.
  destruct (strptime (timestamp (analysis f))) eqn:E0.
  - destruct (strptime (timestamp (analysis new))) eqn:E1; [discriminate|].
    intros [= <-]. split; [reflexivity|]. exists f, rest. auto.
  - intros [= <-]. split; [reflexivity|]. exists f, rest. auto.
Qed.

Lemma format_entry_Raise (e : env) (username : str) (r : report_t) (x : exn) :
  format_entry e username r = Raise x ->
  x = SummarizerError \/ x = CorrectorError.
Proof.
  unfold format_entry.
  destruct (summarizer e _) as [[|summarized_text resp]|]; cbn [or_raise].
  - discriminate.
  - unfold frame_sentence. destruct (correct e summarized_text);
      cbn [or_raise]; [discriminate|]. intros [= <-]. auto.
  - intros [= <-]. auto.
Qed.

Lemma for_each_Raise {A B} (f : A -> result B) (l : list A) (x : exn) :
  for_each f l = Raise x -> exists a, a ∈ l /\ f a = Raise x.
Proof.
  induction l as [|a l IH]; [discriminate|]. simpl.
  destruct (f a) as [b|y] eqn:Ha.
  - destruct (for_each f l) as [bs|y]; [discriminate|].
    intros [= <-]. destruct IH as (a' & Hin & Ha'); [reflexivity|].
    exists a'. split; [right; exact Hin|exact Ha'].
  - intros [= <-]. exists a. split; [left|exact Ha].
Qed.

(** X8. [update_reports] raises exactly when the list is not empty and the
    timestamp of its first record, or of the new one, does not parse; the
    exception is then [ValueError].  The first append of a day never
    raises. *)
Theorem update_reports_fails_iff (old : list report_t) (new : report_t) :
  (exists x, update_reports old new = Raise x)
  <-> exists first rest,
        old = first :: rest
        /\ (strptime (timestamp (analysis first)) = None
            \/ strptime (timestamp (analysis new)) = None).
Proof.
  split.
  - intros [x H]. apply update_reports_Raise in H as [_ H]. exact H.
  - intros (first & rest & -> & H). rewrite update_reports_cons.
    destruct (strptime (timestamp (analysis first))) eqn:E0; [|eauto].
    destruct H as [H|H]; [discriminate|]. rewrite H. eauto.
Qed.

(** X9. A run that fails at the capture, at the OCR, at the load of the
    day's file or at the parsing of a timestamp has written neither the
    day's JSON file nor the readable report: no partial record is
    appended. *)
Theorem early_failure_appends_nothing (e : env) (fs fs' : gmap str file)
    (x : exn) :
  process_screenshot e fs = (Raise x, fs') ->
  x = CaptureError \/ x = OCRError \/ x = JSONDecodeError \/ x = ValueError ->
  fs' !! report_path (strftime_date (now_store e))
  = fs !! report_path (strftime_date (now_store e))
  /\ fs' !! readable_path (strftime_date (now_readable e))
     = fs !! readable_path (strftime_date (now_readable e)).
Proof.
  rewrite process_screenshot_cases. cbv zeta. intros H Hx.
  pose proof (screenshot_ne_report (time_time e)
                (strftime_date (now_store e))) as N1.
  pose proof (screenshot_ne_readable (time_time e)
                (strftime_date (now_readable e))) as N2.
  pose proof (preprocessed_ne_report (time_time e)
                (strftime_date (now_store e))) as N3.
  pose proof (preprocessed_ne_readable (time_time e)
                (strftime_date (now_readable e))) as N4.
  destruct (grab e) as [img|]; [|injection H as <- <-; auto].
  destruct (disk e (screenshot_file _));
    [|injection H as <- <-; repeat destruct Hx as [Hx|Hx]; discriminate Hx..].
  destruct (disk e (preprocessed_file _));
    [|injection H as <- <-; repeat destruct Hx as [Hx|Hx]; discriminate Hx..].
  assert (Hfs2 : forall (f : file) (p : str) (m : gmap str file),
             screenshot_file (time_time e) <> p ->
             preprocessed_file (time_time e) <> p ->
             <[preprocessed_file (time_time e):=f]>
               (<[screenshot_file (time_time e):=Png img]> m) !! p = m !! p).
  { intros f p m Hp1 Hp2. rewrite !lookup_insert_ne by assumption.
    reflexivity. }
  destruct (readtext e (enhance e img)) as [words|];
    [|injection H as <- <-; split; apply Hfs2; assumption].
  assert (Hfs3 : forall (p : str) (m : gmap str file),
             screenshot_file (time_time e) <> p ->
             preprocessed_file (time_time e) <> p ->
             delete (preprocessed_file (time_time e))
               (<[preprocessed_file (time_time e):=Png (enhance e img)]>
                  (<[screenshot_file (time_time e):=Png img]> m)) !! p
             = m !! p).
  { intros p m Hp1 Hp2. rewrite lookup_delete_ne by assumption.
    apply Hfs2; assumption. }
  destruct (stored fs _) as [old|];
    [|injection H as <- <-; split; apply Hfs3; assumption].
  destruct (update_reports old _) as [rs|y];
    [|injection H as <- <-; split; apply Hfs3; assumption].
  destruct (disk e (report_path _));
    [|injection H as <- <-; repeat destruct Hx as [Hx|Hx]; discriminate Hx..].
  destruct (for_each _ rs) as [entries|y] eqn:Hen.
  - destruct (disk e (readable_path _)); try discriminate H;
      injection H as <- <-;
      repeat destruct Hx as [Hx|Hx]; discriminate Hx.
  - injection H as <- <-. exfalso.
    apply for_each_Raise in Hen as (r & _ & Hr).
    apply format_entry_Raise in Hr as [->| ->];
      repeat destruct Hx as [Hx|Hx]; discriminate Hx.
Qed.

(** X10. When an earlier failed write has left the day's file partially
    written, the run never returns and leaves the file as it is; if the
    capture and the OCR went through, the exception is the one of
    [json.load]. *)
Theorem malformed_store_is_not_overwritten (e : env) (fs fs' : gmap str file)
    (out : result report_t) :
  fs !! report_path (strftime_date (now_store e)) = Some Partial ->
  process_screenshot e fs = (out, fs') ->
  (exists x, out = Raise x)
  /\ fs' !! report_path (strftime_date (now_store e)) = Some Partial
  /\ (forall img words,
        grab e = Some img ->
        disk e (screenshot_file (time_time e)) = Written ->
        disk e (preprocessed_file (time_time e)) = Written ->
        readtext e (enhance e img) = Some words ->
        out = Raise JSONDecodeError).
Proof.
  intros Hfs Hrun.
  assert (Hst : stored fs (strftime_date (now_store e)) = None)
    by (unfold stored; rewrite Hfs; reflexivity).
  split; [|split].
  - destruct out as [r|x]; [|eauto]. exfalso.
    apply process_screenshot_Ok in Hrun
      as (img & words & old & rs & entries & _ & _ & Hold & _).
    congruence.
  - rewrite <- Hfs.
    revert Hrun. rewrite process_screenshot_cases. cbv zeta. rewrite Hst.
    intros H.
    repeat match type of H with
           | context [match ?x with _ => _ end] => destruct x
           end;
      injection H as _ <-;
      repeat first
        [ rewrite lookup_insert_ne
            by first [apply screenshot_ne_report
                     |apply preprocessed_ne_report]
        | rewrite lookup_delete_ne by apply preprocessed_ne_report ];
      reflexivity.
  - intros img words Hg Hd1 Hd2 Hr. revert Hrun.
    rewrite process_screenshot_cases. cbv zeta.
    rewrite Hg, Hd1, Hd2, Hr, Hst. intros [= <- _]. reflexivity.
Qed.

(** X11. A failure of the summariser or of the grammar corrector comes after
    the day's JSON file was written: the new record is stored, the
    readable report is left as it was. *)
Theorem summary_failure_keeps_record (e : env) (fs fs' : gmap str file)
    (x : exn) :
  process_screenshot e fs = (Raise x, fs') ->
  x = SummarizerError \/ x = CorrectorError ->
  exists old words,
    stored fs (strftime_date (now_store e)) = Some old
    /\ captured e = Some (analysis (new_report e words))
    /\ (exists r,
          analysis r = analysis (new_report e words)
          /\ fs' !! report_path (strftime_date (now_store e))
             = Some (Json (old ++ [r])))
    /\ fs' !! readable_path (strftime_date (now_readable e))
       = fs !! readable_path (strftime_date (now_readable e)).
Proof.
  rewrite process_screenshot_cases. cbv zeta. intros H Hx.
  destruct (grab e) as [img|] eqn:Hg;
    [|injection H as <- <-; destruct Hx; discriminate].
  destruct (disk e (screenshot_file _));
    [|injection H as <- <-; destruct Hx; discriminate..].
  destruct (disk e (preprocessed_file _));
    [|injection H as <- <-; destruct Hx; discriminate..].
  destruct (readtext e (enhance e img)) as [words|] eqn:Hr;
    [|injection H as <- <-; destruct Hx; discriminate].
  destruct (stored fs _) as [old|] eqn:Hold;
    [|injection H as <- <-; destruct Hx; discriminate].
  destruct (update_reports old _) as [rs|y] eqn:Hup.
  2:{ injection H as <- <-. apply update_reports_Raise in Hup as [-> _].
      destruct Hx; discriminate. }
  destruct (disk e (report_path _));
    [|injection H as <- <-; destruct Hx; discriminate..].
  destruct (for_each _ rs) as [entries|y].
  - destruct (disk e (readable_path _)); try discriminate H;
      injection H as <- <-; destruct Hx; discriminate.
  - injection H as <- <-. exists old, words.
    apply update_reports_Ok in Hup as (r & -> & Ha & _).
    split; [reflexivity|]. split; [|split].
    + unfold captured. rewrite Hg. simpl. rewrite Hr. reflexivity.
    + exists r. split; [exact Ha|apply lookup_insert_eq].
    + rewrite lookup_insert_ne by apply report_ne_readable.
      rewrite lookup_delete_ne by apply preprocessed_ne_readable.
      rewrite lookup_insert_ne by apply preprocessed_ne_readable.
      apply lookup_insert_ne, screenshot_ne_readable.
Qed.

(** *** The endpoint and the runs *)

Lemma run_all_frame_latest (es : list env) :
  forall fs fs', run_all es fs = Ok fs' -> fs' !! latest_path = fs !! latest_path.
Proof.
  induction es as [|e es IH]; intros fs fs' H; [injection H as <-; reflexivity|].
  simpl in H.
  destruct (process_screenshot e fs) as [[r|x] fs1] eqn:Hstep; [|discriminate].
  rewrite (IH fs1 fs' H).
  apply (process_screenshot_frame e fs fs1 (Ok r) latest_path Hstep);
    auto using latest_ne_screenshot, latest_ne_preprocessed,
      latest_ne_report, latest_ne_readable.
Qed.

(** X7. No sequence of pipeline runs ever creates the file the endpoint reads:
    if [combined_report.json] is absent before the runs, [GET /report]
    answers 404 after them, however many records they stored. *)
Theorem runs_never_feed_the_endpoint (es : list env) (fs fs' : gmap str file) :
  fs !! latest_path = None ->
  run_all es fs = Ok fs' ->
  get_latest_report fs'
  = (Ok (ErrorBody (u "No reports available"), 404%Z), fs').
Proof.
  intros Hfs Hrun. apply get_latest_report_absent.
  rewrite (run_all_frame_latest es fs fs' Hrun). exact Hfs.
Qed.

(** *** One file per date *)

Lemma report_path_inj (d d' : str) : report_path d = report_path d' -> d = d'.
Proof.
  unfold report_path, path_join. intros H.
  do 3 apply app_inv_head in H. apply app_inv_tail in H. exact H.
Qed.

(** X12. A run writes the JSON file of its own date only: the file of any
    other date is left as it was, and files of different dates never
    coincide. *)
Theorem other_dates_untouched (e : env) (fs fs' : gmap str file)
    (out : result report_t) (d : str) :
  process_screenshot e fs = (out, fs') ->
  d <> strftime_date (now_store e) ->
  report_path d <> report_path (strftime_date (now_store e))
  /\ fs' !! report_path d = fs !! report_path d.
Proof.
  intros Hrun Hd.
  assert (Hne : report_path d <> report_path (strftime_date (now_store e)))
    by (intros H; apply Hd, report_path_inj, H).
  split; [exact Hne|].
  apply (process_screenshot_frame e fs fs' out (report_path d) Hrun).
  - apply not_eq_sym, screenshot_ne_report.
  - apply not_eq_sym, preprocessed_ne_report.
  - exact Hne.
  - apply report_ne_readable.
Qed.

(** *** A screen without text *)

(** X13. When the OCR recognises nothing, the run still appends a record; its
    text is empty. *)
Theorem empty_ocr_still_appends (e : env) (fs fs' : gmap str file)
    (r : report_t) (img : image) :
  grab e = Some img ->
  readtext e (enhance e img) = Some [] ->
  process_screenshot e fs = (Ok r, fs') ->
  text (analysis r) = []
  /\ timestamp (analysis r) = strftime_ts (localtime e)
  /\ exists old,
       stored fs (strftime_date (now_store e)) = Some old
       /\ fs' !! report_path (strftime_date (now_store e))
          = Some (Json (old ++ [r])).
Proof.
  intros Hg Hr Hrun.
  apply process_screenshot_stored in Hrun
    as (old & a & Hold & Hc & Ha & Hfs' & _).
  unfold captured in Hc. rewrite Hg in Hc. simpl in Hc. rewrite Hr in Hc.
  injection Hc as <-. rewrite Ha. repeat split. eauto.
Qed.

(** *** Rebuilding the readable report *)

(** X14. [generate_readable_report] touches no file but the readable report of
    the day, and doing it again on the same sequence changes nothing
    more. *)
Theorem generate_readable_report_idempotent (e : env) (rs : list report_t)
    (fs fs1 : gmap str file) (out : result unit) :
  generate_readable_report isalnum isspace e rs fs = (out, fs1) ->
  (forall p, p <> readable_path (strftime_date (now_readable e)) ->
             fs1 !! p = fs !! p)
  /\ generate_readable_report isalnum isspace e rs fs1 = (out, fs1).
Proof.
  rewrite !generate_readable_report_eq.
  destruct (for_each _ rs) as [entries|x].
  - unfold write_file. destruct (disk e _); intros [= <- <-]; split;
      try reflexivity;
      try (intros p Hp; rewrite lookup_insert_ne by (apply not_eq_sym, Hp);
           reflexivity);
      rewrite insert_insert_eq; reflexivity.
  - intros [= <- <-]. split; reflexivity.
Qed.

(** *** The pipeline reads what it wrote *)

Lemma healthy_run_returns (e : env) (fs : gmap str file)
    (old : list report_t) :
  (forall d, valid_datetime d = true -> 1000 <= year d ->
             strptime (strftime_ts d) = Some d) ->
  healthy e ->
  stored fs (strftime_date (now_store e)) = Some old ->
  Forall (fun r => is_Some (strptime (timestamp (analysis r)))) old ->
  exists r fs',
    process_screenshot e fs = (Ok r, fs')
    /\ stored fs' (strftime_date (now_store e)) = Some (old ++ [r])
    /\ is_Some (strptime (timestamp (analysis r))).
Proof.
  intros Hrt ([img Hg] & Hr & Hd & Hs & Hc & Hv & Hy) Hold Hp.
  destruct (Hr (enhance e img)) as [words Hw].
  destruct (process_screenshot_returns e fs img words old Hg Hw Hd Hs Hc Hold)
    as (r & fs' & Hrun).
  - intros r Hin. apply elem_of_app in Hin as [Hin|Hin].
    + rewrite Forall_forall in Hp. apply Hp, Hin.
    + apply list_elem_of_singleton in Hin as ->. simpl.
      rewrite (Hrt _ Hv Hy). eauto.
  - exists r, fs'. split; [exact Hrun|].
    apply process_screenshot_stored in Hrun
      as (old' & a & Hold' & Hcap & Ha & Hfs' & _).
    assert (old' = old) as -> by congruence.
    split; [apply stored_lookup, Hfs'|].
    rewrite Ha, (captured_timestamp e a Hcap), (Hrt _ Hv Hy). eauto.
Qed.

(** X15. With a parser that reads back the timestamps [strftime] prints for
    years of four digits, the pipeline never fails on its own records: started on a day without
    file, any number of runs in which nothing around the pipeline fails
    all return, and the day's file then holds one record per run. *)
Theorem healthy_runs_all_return (es : list env) (fs : gmap str file)
    (date : str) :
  (forall d, valid_datetime d = true -> 1000 <= year d ->
             strptime (strftime_ts d) = Some d) ->
  Forall healthy es ->
  Forall (fun e => strftime_date (now_store e) = date) es ->
  fs !! report_path date = None ->
  exists fs' rs,
    run_all es fs = Ok fs'
    /\ stored fs' date = Some rs
    /\ length rs = length es.
Proof.
  intros Hrt Hh Hd Hfs. apply stored_absent in Hfs.
  assert (Hp : Forall (fun r => is_Some (strptime (timestamp (analysis r))))
                 (@nil report_t)) by constructor.
  change (length es) with (length (@nil report_t) + length es)%nat.
  revert Hfs Hp. generalize (@nil report_t) as old. revert fs Hh Hd.
  induction es as [|e es IH]; intros fs Hh Hd old Hold Hp.
  - exists fs, old. simpl. split; [reflexivity|]. split; [exact Hold|lia].
  - apply Forall_cons in Hh as [He Hh]. apply Forall_cons in Hd as [Hde Hd].
    subst date.
    destruct (healthy_run_returns e fs old Hrt He Hold Hp)
      as (r & fs1 & Hrun & Hst & Hr).
    destruct (IH fs1 Hh Hd (old ++ [r]) Hst) as (fs' & rs & H1 & H2 & H3).
    { apply Forall_app. split; [exact Hp|]. repeat constructor. exact Hr. }
    exists fs', rs. simpl. rewrite Hrun. split; [exact H1|].
    split; [exact H2|]. rewrite H3, length_app. simpl. lia.
Qed.
End PipelineFacts.

(** ** The user name *)

Lemma str_or_nonempty (a b : option str) (s : str) :
  str_or a b = Some s -> (forall t, b = Some t -> t <> []) -> s <> [].
Proof.
  unfold str_or. destruct a as [[|c t]|]; intros H Hb.
  - apply (Hb s H).
  - injection H as <-. discriminate.
  - apply (Hb s H).
Qed.

(** X5. When [os.getlogin] fails, [get_username] is never empty: it is the
    value of [USER] if that is set and not empty, else the value of
    [USERNAME] if that is set and not empty, else [User]. *)
Theorem get_username_fallback (e : env) :
  getlogin e = None ->
  get_username e <> []
  /\ (forall c t, environ e (u "USER") = Some (c :: t) ->
                  get_username e = c :: t)
  /\ (forall c t,
        environ e (u "USER") = None \/ environ e (u "USER") = Some [] ->
        environ e (u "USERNAME") = Some (c :: t) ->
        get_username e = c :: t)
  /\ (environ e (u "USER") = None \/ environ e (u "USER") = Some [] ->
      environ e (u "USERNAME") = None \/ environ e (u "USERNAME") = Some [] ->
      get_username e = u "User").
Proof.
  intros Hl. unfold get_username. rewrite Hl. repeat split.
  - destruct (environ e (u "USER")) as [[|c t]|];
      destruct (environ e (u "USERNAME")) as [[|c' t']|]; discriminate.
  - intros c t ->. reflexivity.
  - intros c t [-> | ->] ->; reflexivity.
  - intros [-> | ->] [-> | ->]; reflexivity.
Qed.

(** ** The read endpoint *)

(** X6. [get_latest_report] only reads: it leaves the file system as it was.
    It answers 404 exactly when [combined_report.json] is absent, and 200
    with the stored sequence exactly when the file holds one. *)
Theorem get_latest_report_read_only (fs : gmap str file) :
  snd (get_latest_report fs) = fs
  /\ (fst (get_latest_report fs)
      = Ok (ErrorBody (u "No reports available"), 404%Z)
      <-> fs !! latest_path = None)
  /\ (forall rs,
        fst (get_latest_report fs) = Ok (ReportBody rs, 200%Z)
        <-> fs !! latest_path = Some (Json rs)).
Proof.
  assert (E : get_latest_report fs =
              match fs !! latest_path with
              | None => (Ok (ErrorBody (u "No reports available"), 404%Z), fs)
              | Some (Json rs) => (Ok (ReportBody rs, 200%Z), fs)
              | Some _ => (Raise JSONDecodeError, fs)
              end).
  { unfold get_latest_report. fold latest_path.
    unfold bind, path_exists, json_load, ret.
    destruct (fs !! latest_path) as [[img|rs'|s|]|] eqn:El; simpl;
      rewrite ?El; reflexivity. }
  rewrite E. clear E.
  destruct (fs !! latest_path) as [[img|rs'|s|]|]; simpl;
    (split; [reflexivity|]);
    (split;
     [split; intros H; try discriminate H; reflexivity
     |intros rs; split; intros H; try discriminate H;
      injection H as ->; reflexivity]).
Qed.

(** ** Elapsed times *)

Lemma second_of_day_range (d : datetime) :
  valid_datetime d = true -> (0 <= second_of_day d < 86400)%Z.
Proof.
  unfold valid_datetime, second_of_day. intros H.
  repeat (apply andb_true_iff in H as [H ?]). lia.
Qed.

(** X16. The difference of two datetimes is normalised as Python does: the
    seconds lie between 0 and 86399, the days carry the sign; it is the
    exact number of seconds between the two instants, and swapping the
    operands negates it. *)
Theorem datetime_sub_normalised (a b : datetime) :
  (0 <= seconds (datetime_sub a b) < 86400)%Z
  /\ total_seconds (datetime_sub a b) = (epoch_seconds a - epoch_seconds b)%Z
  /\ total_seconds (datetime_sub b a) = (- total_seconds (datetime_sub a b))%Z.
Proof.
  assert (H : forall x y, total_seconds (datetime_sub x y)
                          = (epoch_seconds x - epoch_seconds y)%Z).
  { intros x y.
    unfold total_seconds, datetime_sub, timedelta_new, epoch_seconds.
    cbn [days seconds].
    pose proof (Z.div_mod (second_of_day x - second_of_day y) 86400). lia. }
  split; [|split].
  - unfold datetime_sub, timedelta_new. cbn [seconds].
    apply Z.mod_pos_bound. lia.
  - apply H.
  - rewrite !H. lia.
Qed.

(** X17. Two timestamps of the same day, the later one first: the elapsed time
    has no day part and prints as hours, two-digit minutes and two-digit
    seconds. *)
Theorem elapsed_text_same_day (a b : datetime) :
  valid_datetime a = true ->
  valid_datetime b = true ->
  toordinal a = toordinal b ->
  (second_of_day b <= second_of_day a)%Z ->
  let s := (second_of_day a - second_of_day b)%Z in
  days (datetime_sub a b) = 0%Z
  /\ seconds (datetime_sub a b) = s
  /\ timedelta_str (datetime_sub a b)
     = show_Z (s / 3600) ++ u ":" ++ dec 2 (Z.to_N (s / 60 mod 60))
       ++ u ":" ++ dec 2 (Z.to_N (s mod 60)).
Proof.
  intros Ha Hb Ho Hle s.
  pose proof (second_of_day_range a Ha). pose proof (second_of_day_range b Hb).
  assert (Hs : (0 <= s < 86400)%Z) by (unfold s; lia).
  assert (Hd : days (datetime_sub a b) = 0%Z).
  { unfold datetime_sub, timedelta_new. cbn [days]. fold s.
    rewrite Ho, Z.sub_diag, Z.div_small by exact Hs. reflexivity. }
  assert (Hsec : seconds (datetime_sub a b) = s).
  { unfold datetime_sub, timedelta_new. cbn [seconds]. fold s.
    apply Z.mod_small, Hs. }
  split; [exact Hd|]. split; [exact Hsec|].
  unfold timedelta_str. rewrite Hd, Hsec. cbn [Z.eqb].
  rewrite Z.div_div by lia. reflexivity.
Qed.

(** X18. Timestamps are not checked for order: when the new record's timestamp
    is earlier, on the same day, than the first record's, the elapsed
    time is negative and prints with the day part [-1 day]. *)
Theorem elapsed_text_backdated (a b : datetime) :
  valid_datetime a = true ->
  valid_datetime b = true ->
  toordinal a = toordinal b ->
  (second_of_day a < second_of_day b)%Z ->
  let s := (86400 + second_of_day a - second_of_day b)%Z in
  days (datetime_sub a b) = (-1)%Z
  /\ seconds (datetime_sub a b) = s
  /\ timedelta_str (datetime_sub a b)
     = u "-1 day, " ++ show_Z (s / 3600) ++ u ":"
       ++ dec 2 (Z.to_N (s / 60 mod 60)) ++ u ":" ++ dec 2 (Z.to_N (s mod 60)).
Proof.
  intros Ha Hb Ho Hlt s.
  pose proof (second_of_day_range a Ha). pose proof (second_of_day_range b Hb).
  assert (Hs : (0 <= s < 86400)%Z) by (unfold s; lia).
  assert (Hq : ((second_of_day a - second_of_day b) / 86400 = -1)%Z).
  { symmetry. apply (Z.div_unique _ 86400 (-1) s); [lia|unfold s; lia]. }
  assert (Hm : ((second_of_day a - second_of_day b) mod 86400 = s)%Z).
  { symmetry. apply (Z.mod_unique _ 86400 (-1) s); [lia|unfold s; lia]. }
  assert (Hd : days (datetime_sub a b) = (-1)%Z).
  { unfold datetime_sub, timedelta_new. cbn [days].
    rewrite Ho, Z.sub_diag, Hq. reflexivity. }
  assert (Hsec : seconds (datetime_sub a b) = s).
  { unfold datetime_sub, timedelta_new. cbn [seconds]. exact Hm. }
  split; [exact Hd|]. split; [exact Hsec|].
  unfold timedelta_str. rewrite Hd, Hsec.
  rewrite Z.div_div by lia. reflexivity.
Qed.

(** X19. For a valid date and time in a year of four digits, the timestamp
    [analyze_screenshot] writes has 19 characters, and the parser of
    padded timestamps reads it back to the same date and time. *)
Theorem timestamp_round_trip (d : datetime) :
  valid_datetime d = true ->
  1000 <= year d ->
  length (strftime_ts d) = 19%nat
  /\ strptime_padded (strftime_ts d) = Some d.
Proof.
  intros Hv _. split; [|apply strptime_padded_strftime, Hv].
  unfold strftime_ts, strftime_date.
  rewrite !length_app, !length_dec. reflexivity.
Qed.

(** ** The files of a run *)

(** X20. [preprocess_image] saves beside the screenshot, under the name with
    [_preprocessed] before the extension, whatever the time stamp; the
    files a run handles and the file the endpoint reads are pairwise
    different, so none is ever written in place of another. *)
Theorem run_files_distinct (t : Z) (d d' : str) :
  preprocessed_file t
  = u "screenshots/screenshot_" ++ show_Z t ++ u "_preprocessed.png"
  /\ NoDup [screenshot_file t; preprocessed_file t; report_path d;
            readable_path d'; latest_path].
Proof.
  split; [apply preprocessed_file_eq|].
  pose proof (preprocessed_ne_screenshot t).
  pose proof (screenshot_ne_report t d).
  pose proof (screenshot_ne_readable t d').
  pose proof (latest_ne_screenshot t).
  pose proof (preprocessed_ne_report t d).
  pose proof (preprocessed_ne_readable t d').
  pose proof (latest_ne_preprocessed t).
  pose proof (report_ne_readable d d').
  pose proof (latest_ne_report d).
  pose proof (latest_ne_readable d').
  repeat constructor; rewrite ?elem_of_cons, ?elem_of_nil;
    intuition congruence.
Qed.

Lemma uint_str_inj (a b : Decimal.uint) : uint_str a = uint_str b -> a = b.
Proof.
  revert b; induction a; intros []; simpl; intros H; try discriminate H;
    try reflexivity; injection H as H; f_equal; auto.
Qed.

Lemma uint_str_no_minus (a : Decimal.uint) (s : str) :
  uint_str a <> u "-" ++ s.
Proof. destruct a; discriminate. Qed.

Lemma show_Z_inj (t t' : Z) : show_Z t = show_Z t' -> t = t'.
Proof.
  assert (Hn : forall n m, N.to_uint n = N.to_uint m -> n = m).
  { intros n m H. apply (f_equal N.of_uint) in H.
    rewrite !DecimalN.Unsigned.of_to in H. exact H. }
  assert (Hp : forall p q, Pos.to_uint p = Pos.to_uint q -> p = q).
  { intros p q H. apply (f_equal Pos.of_uint) in H.
    rewrite !DecimalPos.Unsigned.of_to in H. injection H as H. exact H. }
  destruct t as [|p|p], t' as [|q|q]; unfold show_Z; intros H;
    try reflexivity;
    try (exfalso; apply uint_str_no_minus in H; exact H);
    try (exfalso; symmetry in H; apply uint_str_no_minus in H; exact H).
  - apply uint_str_inj, Hn in H. discriminate H.
  - apply uint_str_inj, Hn in H. discriminate H.
  - apply uint_str_inj, Hn in H. simpl in H. congruence.
  - apply app_inv_head, uint_str_inj, Hp in H. congruence.
Qed.

(** X21. Screenshots taken in different seconds have different files, and so
    have their preprocessed images: a run never overwrites the artifacts
    of a run of another second. *)
Theorem screenshot_file_per_second (t t' : Z) :
  (screenshot_file t = screenshot_file t' -> t = t')
  /\ (preprocessed_file t = preprocessed_file t' -> t = t').
Proof.
  split.
  - rewrite !screenshot_file_eq. intros H.
    apply app_inv_head, app_inv_tail in H. apply show_Z_inj, H.
  - rewrite !preprocessed_file_eq. intros H.
    apply app_inv_head, app_inv_tail in H. apply show_Z_inj, H.
Qed.

(** ** The properties on sample runs *)

Lemma sample_runs_eta (es : list env) :
  is_Ok (sample_runs es ∅) = true -> sample_runs es ∅ = Ok (fs_after es).
Proof.
  unfold fs_after. destruct (sample_runs es ∅); [reflexivity|discriminate].
Defined.

Lemma sample_process_eta (e : env) (fs : gmap str file) :
  is_Ok (fst (sample_process e fs)) = true ->
  sample_process e fs = (Ok (step_report e fs), step_fs e fs).
Proof.
  unfold step_report, step_fs.
  destruct (sample_process e fs) as [[r|x] fs']; [reflexivity|discriminate].
Defined.

Lemma same_day_3 :
  Forall (fun e => strftime_date (now_store e) = u "2024-01-01")
    [env_1000; env_1004; env_1008].
Proof. repeat constructor. Defined.

Lemma preprocess_text_idempotent_witness :
  preprocess_text ascii_isalnum ascii_isspace
    (preprocess_text ascii_isalnum ascii_isspace
       (u "Read  www.example.org/a?b=1, then: reply!"))
  = preprocess_text ascii_isalnum ascii_isspace
      (u "Read  www.example.org/a?b=1, then: reply!").
Proof.
  apply (preprocess_text_idempotent ascii_isalnum ascii_isspace);
    reflexivity.
Defined.

Lemma appends_kept_in_order_witness :
  exists news,
    fs_after [env_1000; env_1004; env_1008] !! report_path (u "2024-01-01")
    = Some (Json ([] ++ news))
    /\ length news = length [env_1000; env_1004; env_1008]
    /\ map (fun r => Some (analysis r)) news
       = map captured [env_1000; env_1004; env_1008].
Proof.
  apply (appends_kept_in_order ascii_isalnum ascii_isspace strptime_padded
           [env_1000; env_1004; env_1008] ∅).
  - exact same_day_3.
  - discriminate.
  - reflexivity.
  - apply sample_runs_eta. vm_compute. reflexivity.
Defined.

Lemma first_append_has_no_total_time_witness :
  step_fs env_1000 ∅ !! report_path (u "2024-01-01")
  = Some (Json [step_report env_1000 ∅])
  /\ total_time (step_report env_1000 ∅) = None
  /\ step_fs env_1004 (step_fs env_1000 ∅) !! report_path (u "2024-01-01")
     = Some (Json [step_report env_1000 ∅;
                   step_report env_1004 (step_fs env_1000 ∅)])
  /\ is_Some (total_time (step_report env_1004 (step_fs env_1000 ∅))).
Proof.
  apply (first_append_has_no_total_time ascii_isalnum ascii_isspace
           strptime_padded env_1000 env_1004 ∅).
  - reflexivity.
  - reflexivity.
  - reflexivity.
  - apply sample_process_eta. vm_compute. reflexivity.
  - apply sample_process_eta. vm_compute. reflexivity.
Defined.

Lemma first_record_never_has_total_time_witness :
  (exists rs,
     stored (fs_after [env_1000; env_1004; env_1008]) (u "2024-01-01")
     = Some rs
     /\ length rs = length [env_1000; env_1004; env_1008]
     /\ forall first, rs !! 0%nat = Some first -> total_time first = None)
  /\ (forall e fs1 fs2 r,
        sample_process e fs1 = (Ok r, fs2) ->
        exists old,
          stored fs1 (strftime_date (now_store e)) = Some old
          /\ fs2 !! report_path (strftime_date (now_store e))
             = Some (Json (old ++ [r]))
          /\ (is_Some (total_time r) -> (2 <= length (old ++ [r]))%nat)).
Proof.
  apply (first_record_never_has_total_time ascii_isalnum ascii_isspace
           strptime_padded [env_1000; env_1004; env_1008] ∅).
  - exact same_day_3.
  - reflexivity.
  - apply sample_runs_eta. vm_compute. reflexivity.
Defined.

(** C1, counterexample. After the three appends of 10:00:00, 10:04:30 and
    10:08:30, the second record, which is not the last, still carries the
    [total_time] it got when it was appended: it is not the case that
    exactly the last record has the field. *)
Lemma second_of_three_keeps_total_time :
  exists rs,
    sample_runs [env_1000; env_1004; env_1008] ∅
    = Ok (fs_after [env_1000; env_1004; env_1008])
    /\ fs_after [env_1000; env_1004; env_1008] !! report_path (u "2024-01-01")
       = Some (Json rs)
    /\ length rs = 3%nat
    /\ (exists r, rs !! 1%nat = Some r /\ total_time r = Some (u "0:04:30"))
    /\ ~ only_last_has_total_time rs.
Proof.
  eexists. split; [apply sample_runs_eta; vm_compute; reflexivity|].
  split; [vm_compute; reflexivity|].
  split; [reflexivity|].
  split; [eexists; split; reflexivity|].
  intros H. destruct (H 1%nat _ eq_refl) as [H1 _].
  assert (H2 : is_Some (Some (u "0:04:30"))) by (eexists; reflexivity).
  apply H1 in H2. discriminate H2.
Qed.

Lemma later_records_keep_total_time_witness :
  exists first rest,
    fs_after [env_1000; env_1004; env_1008] !! report_path (u "2024-01-01")
    = Some (Json (first :: rest))
    /\ length (first :: rest) = length [env_1000; env_1004; env_1008]
    /\ total_time first = None
    /\ Forall (elapsed_since strptime_padded first) rest.
Proof.
  apply (later_records_keep_total_time ascii_isalnum ascii_isspace
           strptime_padded [env_1000; env_1004; env_1008] ∅).
  - exact same_day_3.
  - simpl. lia.
  - reflexivity.
  - apply sample_runs_eta. vm_compute. reflexivity.
Defined.

(** C3, counterexample. With records appended at 10:00:00 and 10:04:30 of
    the same day, the [total_time] stored on the second record is the text
    [0:04:30], as [str] prints a [timedelta], and not [00:04:30]. *)
Lemma elapsed_text_has_one_hour_digit :
  exists r1 r2,
    sample_runs [env_1000; env_1004] ∅ = Ok (fs_after [env_1000; env_1004])
    /\ fs_after [env_1000; env_1004] !! report_path (u "2024-01-01")
       = Some (Json [r1; r2])
    /\ timestamp (analysis r1) = u "2024-01-01 10:00:00"
    /\ timestamp (analysis r2) = u "2024-01-01 10:04:30"
    /\ total_time r2 = Some (u "0:04:30")
    /\ total_time r2 <> Some (u "00:04:30").
Proof.
  eexists. eexists.
  split; [apply sample_runs_eta; vm_compute; reflexivity|].
  split; [vm_compute; reflexivity|].
  repeat split. discriminate.
Qed.

Lemma total_time_is_elapsed_witness :
  exists d0 d1,
    strptime_padded (timestamp (analysis (step_report env_1000 ∅))) = Some d0
    /\ strptime_padded
         (timestamp (analysis (step_report env_1004 (fs_after [env_1000]))))
       = Some d1
    /\ timestamp (analysis (step_report env_1004 (fs_after [env_1000])))
       = strftime_ts (localtime env_1004)
    /\ step_fs env_1004 (fs_after [env_1000])
         !! report_path (strftime_date (now_store env_1004))
       = Some (Json ((step_report env_1000 ∅ :: [])
                     ++ [step_report env_1004 (fs_after [env_1000])]))
    /\ total_time (step_report env_1004 (fs_after [env_1000]))
       = Some (timedelta_str (datetime_sub d1 d0))
    /\ total_seconds (datetime_sub d1 d0)
       = (epoch_seconds d1 - epoch_seconds d0)%Z.
Proof.
  apply (total_time_is_elapsed ascii_isalnum ascii_isspace strptime_padded
           env_1004 (fs_after [env_1000])).
  - vm_compute. reflexivity.
  - apply sample_process_eta. vm_compute. reflexivity.
Defined.

Lemma report_endpoint_misses_daily_file_witness :
  (exists old,
     step_fs env_1000 ∅ !! report_path (strftime_date (now_store env_1000))
     = Some (Json (old ++ [step_report env_1000 ∅])))
  /\ get_latest_report (step_fs env_1000 ∅)
     = (Ok (ErrorBody (u "No reports available"), 404%Z), step_fs env_1000 ∅).
Proof.
  apply (report_endpoint_misses_daily_file ascii_isalnum ascii_isspace
           strptime_padded env_1000 ∅).
  - reflexivity.
  - apply sample_process_eta. vm_compute. reflexivity.
Defined.

(** C4, counterexample. The day's file holds the record of 10:00:00; the
    run of 10:04:30 opens it for writing and the write then fails.  The run
    raises, and the partition file is left partially written: the previous
    content is gone. *)
Lemma failed_write_loses_previous_report :
  exists r1,
    sample_runs [env_1000] ∅ = Ok (fs_after [env_1000])
    /\ fs_after [env_1000] !! report_path (u "2024-01-01") = Some (Json [r1])
    /\ fst (sample_process env_write_fails (fs_after [env_1000]))
       = Raise OSError
    /\ step_fs env_write_fails (fs_after [env_1000])
         !! report_path (u "2024-01-01") = Some Partial.
Proof.
  eexists.
  split; [apply sample_runs_eta; vm_compute; reflexivity|].
  split; [vm_compute; reflexivity|].
  split; vm_compute; reflexivity.
Qed.

Lemma report_written_in_place_witness :
  (forall p,
     p <> screenshot_file (time_time env_write_fails) ->
     p <> preprocessed_file (time_time env_write_fails) ->
     p <> report_path (strftime_date (now_store env_write_fails)) ->
     p <> readable_path (strftime_date (now_readable env_write_fails)) ->
     step_fs env_write_fails (fs_after [env_1000]) !! p
     = fs_after [env_1000] !! p)
  /\ (fst (sample_process env_write_fails (fs_after [env_1000]))
      = Raise OSError
      /\ step_fs env_write_fails (fs_after [env_1000])
           !! report_path (strftime_date (now_store env_write_fails))
         = Some Partial
      /\ step_fs env_write_fails (fs_after [env_1000])
           !! report_path (strftime_date (now_store env_write_fails))
         <> fs_after [env_1000]
              !! report_path (strftime_date (now_store env_write_fails))).
Proof.
  apply (report_written_in_place ascii_isalnum ascii_isspace strptime_padded
           env_write_fails (fs_after [env_1000])
           (step_fs env_write_fails (fs_after [env_1000]))
           (fst (sample_process env_write_fails (fs_after [env_1000])))
           7 [u "Inbox"] [step_report env_1000 ∅]
           [step_report env_1000 ∅;
            set_total_time (u "0:04:30")
              (new_report env_write_fails [u "Inbox"])]).
  - apply surjective_pairing.
  - reflexivity.
  - vm_compute. reflexivity.
  - vm_compute. reflexivity.
  - reflexivity.
  - vm_compute. reflexivity.
  - vm_compute. reflexivity.
Defined.

(** C5, counterexample. When the OCR engine raises, the run ends with the
    exception and both the screenshot file and the preprocessed image are
    still on disk. *)
Lemma ocr_failure_leaves_both_files :
  fst (sample_process env_ocr_fails ∅) = Raise OCRError
  /\ step_fs env_ocr_fails ∅ !! screenshot_file (time_time env_ocr_fails)
     = Some (Png 7)
  /\ step_fs env_ocr_fails ∅ !! preprocessed_file (time_time env_ocr_fails)
     = Some (Png 8).
Proof. repeat split; vm_compute; reflexivity. Qed.

Lemma artifacts_removed_on_success_witness :
  (forall r,
     Ok (step_report env_1000 ∅) = Ok r ->
     step_fs env_1000 ∅ !! screenshot_file (time_time env_1000) = None
     /\ step_fs env_1000 ∅ !! preprocessed_file (time_time env_1000) = None)
  /\ (forall x img,
        Ok (step_report env_1000 ∅) = Raise x ->
        grab env_1000 = Some img ->
        disk env_1000 (screenshot_file (time_time env_1000)) = Written ->
        step_fs env_1000 ∅ !! screenshot_file (time_time env_1000)
        = Some (Png img))
  /\ (forall img,
        grab env_1000 = Some img ->
        disk env_1000 (screenshot_file (time_time env_1000)) = Written ->
        disk env_1000 (preprocessed_file (time_time env_1000)) = Written ->
        readtext env_1000 (enhance env_1000 img) = None ->
        Ok (step_report env_1000 ∅) = Raise OCRError
        /\ step_fs env_1000 ∅ !! preprocessed_file (time_time env_1000)
           = Some (Png (enhance env_1000 img))).
Proof.
  apply (artifacts_removed_on_success ascii_isalnum ascii_isspace
           strptime_padded env_1000 ∅).
  apply sample_process_eta. vm_compute. reflexivity.
Defined.

(** C9, counterexample. After the appends of 10:00:00 and 10:04:30 the
    readable report is the two entries with a single line feed between
    them: no blank line separates the paragraphs, and the text has no blank
    line at all. *)
Lemma readable_report_has_no_blank_line :
  sample_runs [env_1000; env_1004] ∅ = Ok (fs_after [env_1000; env_1004])
  /\ fs_after [env_1000; env_1004] !! readable_path (u "2024-01-01")
     = Some (Text (entry_1000 ++ [10] ++ entry_1004))
  /\ entry_1000 ++ [10] ++ entry_1004 <> join [10; 10] [entry_1000; entry_1004]
  /\ has_blank_line (entry_1000 ++ [10] ++ entry_1004) = false.
Proof.
  split; [apply sample_runs_eta; vm_compute; reflexivity|].
  split; [vm_compute; reflexivity|].
  split; [|vm_compute; reflexivity].
  vm_compute. discriminate.
Qed.

Lemma readable_report_rebuilt_witness :
  exists rs entries,
    step_fs env_1004 (fs_after [env_1000])
      !! report_path (strftime_date (now_store env_1004)) = Some (Json rs)
    /\ Forall2 (fun report entry =>
                  format_entry ascii_isalnum ascii_isspace env_1004
                    (get_username env_1004) report = Ok entry)
         rs entries
    /\ step_fs env_1004 (fs_after [env_1000])
         !! readable_path (strftime_date (now_readable env_1004))
       = Some (Text (join [10] entries)).
Proof.
  apply (readable_report_rebuilt ascii_isalnum ascii_isspace strptime_padded
           env_1004 (fs_after [env_1000])
           (step_fs env_1004 (fs_after [env_1000]))
           (step_report env_1004 (fs_after [env_1000]))).
  apply sample_process_eta. vm_compute. reflexivity.
Defined.

(** ** Further properties on sample runs *)

Lemma sample_process_raise (e : env) (fs : gmap str file) (x : exn) :
  fst (sample_process e fs) = Raise x ->
  sample_process e fs = (Raise x, step_fs e fs).
Proof.
  unfold step_fs. destruct (sample_process e fs) as [out fs']. simpl.
  intros ->. reflexivity.
Defined.

Lemma preprocess_text_shape_witness :
  let out := preprocess_text ascii_isalnum ascii_isspace
               (u "  see  www.a.org , then: b!  ") in
  Forall (fun c => (is_word ascii_isalnum c = true /\ ascii_isspace c = false)
                   \/ c = 32) out
  /\ (forall i, out !! i = Some 32 -> out !! S i <> Some 32)
  /\ (forall c, head out = Some c -> ascii_isspace c = false)
  /\ (forall c, last out = Some c -> ascii_isspace c = false).
Proof.
  apply (preprocess_text_shape ascii_isalnum ascii_isspace). reflexivity.
Defined.

Lemma preprocess_text_keeps_clean_text_witness :
  preprocess_text ascii_isalnum ascii_isspace (u "ab c_9") = u "ab c_9".
Proof.
  apply (preprocess_text_keeps_clean_text ascii_isalnum ascii_isspace);
    try reflexivity.
  - repeat (constructor;
            [first [left; split; reflexivity | right; reflexivity]|]).
    constructor.
  - intros i. do 7 (destruct i as [|i]; [simpl; intros H;
                                         first [discriminate H|discriminate]|]).
    discriminate.
  - discriminate.
  - discriminate.
Defined.

Lemma preprocess_text_cuts_at_question_mark_witness :
  preprocess_text ascii_isalnum ascii_isspace (u "ok" ++ 63 :: u " yes, sure")
  = preprocess_text ascii_isalnum ascii_isspace (u "ok").
Proof.
  apply (preprocess_text_cuts_at_question_mark ascii_isalnum ascii_isspace);
    repeat (constructor; [repeat split; discriminate|]); constructor.
Defined.

Lemma early_failure_appends_nothing_witness :
  step_fs env_ocr_fails ∅ !! report_path (strftime_date (now_store env_ocr_fails))
  = (∅ : gmap str file) !! report_path (strftime_date (now_store env_ocr_fails))
  /\ step_fs env_ocr_fails ∅
       !! readable_path (strftime_date (now_readable env_ocr_fails))
     = (∅ : gmap str file)
         !! readable_path (strftime_date (now_readable env_ocr_fails)).
Proof.
  apply (early_failure_appends_nothing ascii_isalnum ascii_isspace
           strptime_padded env_ocr_fails ∅ (step_fs env_ocr_fails ∅) OCRError).
  - apply sample_process_raise. vm_compute. reflexivity.
  - right. left. reflexivity.
Defined.

Lemma malformed_store_is_not_overwritten_witness :
  (exists x,
     fst (sample_process env_1008
            (step_fs env_write_fails (fs_after [env_1000]))) = Raise x)
  /\ step_fs env_1008 (step_fs env_write_fails (fs_after [env_1000]))
       !! report_path (strftime_date (now_store env_1008))
     = Some Partial
  /\ (forall img words,
        grab env_1008 = Some img ->
        disk env_1008 (screenshot_file (time_time env_1008)) = Written ->
        disk env_1008 (preprocessed_file (time_time env_1008)) = Written ->
        readtext env_1008 (enhance env_1008 img) = Some words ->
        fst (sample_process env_1008
               (step_fs env_write_fails (fs_after [env_1000])))
        = Raise JSONDecodeError).
Proof.
  apply (malformed_store_is_not_overwritten ascii_isalnum ascii_isspace
           strptime_padded env_1008
           (step_fs env_write_fails (fs_after [env_1000]))).
  - vm_compute. reflexivity.
  - apply surjective_pairing.
Defined.

Lemma summary_failure_keeps_record_witness :
  exists old words,
    stored (fs_after [env_1000]) (strftime_date (now_store env_summarizer_fails))
    = Some old
    /\ captured env_summarizer_fails
       = Some (analysis (new_report env_summarizer_fails words))
    /\ (exists r,
          analysis r = analysis (new_report env_summarizer_fails words)
          /\ step_fs env_summarizer_fails (fs_after [env_1000])
               !! report_path (strftime_date (now_store env_summarizer_fails))
             = Some (Json (old ++ [r])))
    /\ step_fs env_summarizer_fails (fs_after [env_1000])
         !! readable_path (strftime_date (now_readable env_summarizer_fails))
       = fs_after [env_1000]
           !! readable_path (strftime_date (now_readable env_summarizer_fails)).
Proof.
  apply (summary_failure_keeps_record ascii_isalnum ascii_isspace
           strptime_padded env_summarizer_fails (fs_after [env_1000])
           (step_fs env_summarizer_fails (fs_after [env_1000]))
           SummarizerError).
  - apply sample_process_raise. vm_compute. reflexivity.
  - left. reflexivity.
Defined.

Lemma runs_never_feed_the_endpoint_witness :
  get_latest_report (fs_after [env_1000; env_1004; env_1008])
  = (Ok (ErrorBody (u "No reports available"), 404%Z),
     fs_after [env_1000; env_1004; env_1008]).
Proof.
  apply (runs_never_feed_the_endpoint ascii_isalnum ascii_isspace
           strptime_padded [env_1000; env_1004; env_1008] ∅).
  - reflexivity.
  - apply sample_runs_eta. vm_compute. reflexivity.
Defined.

Lemma other_dates_untouched_witness :
  report_path (u "2023-12-31")
  <> report_path (strftime_date (now_store env_1004))
  /\ step_fs env_1004 (fs_after [env_1000]) !! report_path (u "2023-12-31")
     = fs_after [env_1000] !! report_path (u "2023-12-31").
Proof.
  apply (other_dates_untouched ascii_isalnum ascii_isspace strptime_padded
           env_1004 (fs_after [env_1000])
           (step_fs env_1004 (fs_after [env_1000]))
           (fst (sample_process env_1004 (fs_after [env_1000])))).
  - apply surjective_pairing.
  - discriminate.
Defined.

Lemma empty_ocr_still_appends_witness :
  text (analysis (step_report env_empty_ocr ∅)) = []
  /\ timestamp (analysis (step_report env_empty_ocr ∅))
     = strftime_ts (localtime env_empty_ocr)
  /\ exists old,
       stored ∅ (strftime_date (now_store env_empty_ocr)) = Some old
       /\ step_fs env_empty_ocr ∅
            !! report_path (strftime_date (now_store env_empty_ocr))
          = Some (Json (old ++ [step_report env_empty_ocr ∅])).
Proof.
  apply (empty_ocr_still_appends ascii_isalnum ascii_isspace strptime_padded
           env_empty_ocr ∅ (step_fs env_empty_ocr ∅)
           (step_report env_empty_ocr ∅) 7).
  - reflexivity.
  - reflexivity.
  - apply sample_process_eta. vm_compute. reflexivity.
Defined.

Lemma generate_readable_report_idempotent_witness :
  (forall p,
     p <> readable_path (strftime_date (now_readable env_1000)) ->
     snd (generate_readable_report ascii_isalnum ascii_isspace env_1000
            [new_report env_1000 [u "Inbox"]] ∅) !! p
     = (∅ : gmap str file) !! p)
  /\ generate_readable_report ascii_isalnum ascii_isspace env_1000
       [new_report env_1000 [u "Inbox"]]
       (snd (generate_readable_report ascii_isalnum ascii_isspace env_1000
               [new_report env_1000 [u "Inbox"]] ∅))
     = (fst (generate_readable_report ascii_isalnum ascii_isspace env_1000
               [new_report env_1000 [u "Inbox"]] ∅),
        snd (generate_readable_report ascii_isalnum ascii_isspace env_1000
               [new_report env_1000 [u "Inbox"]] ∅)).
Proof.
  apply (generate_readable_report_idempotent ascii_isalnum ascii_isspace
           env_1000 [new_report env_1000 [u "Inbox"]] ∅).
  apply surjective_pairing.
Defined.

Lemma sample_envs_healthy : Forall healthy [env_1000; env_1004; env_1008].
Proof.
  repeat constructor; simpl; eauto; discriminate.
Defined.

Lemma healthy_runs_all_return_witness :
  exists fs' rs,
    sample_runs [env_1000; env_1004; env_1008] ∅ = Ok fs'
    /\ stored fs' (u "2024-01-01") = Some rs
    /\ length rs = length [env_1000; env_1004; env_1008].
Proof.
  apply (healthy_runs_all_return ascii_isalnum ascii_isspace strptime_padded
           [env_1000; env_1004; env_1008] ∅ (u "2024-01-01")).
  - intros d Hv _. apply strptime_padded_strftime, Hv.
  - exact sample_envs_healthy.
  - exact same_day_3.
  - reflexivity.
Defined.

Lemma get_username_fallback_witness :
  get_username env_no_login <> []
  /\ (forall c t, environ env_no_login (u "USER") = Some (c :: t) ->
                  get_username env_no_login = c :: t)
  /\ (forall c t,
        environ env_no_login (u "USER") = None
        \/ environ env_no_login (u "USER") = Some [] ->
        environ env_no_login (u "USERNAME") = Some (c :: t) ->
        get_username env_no_login = c :: t)
  /\ (environ env_no_login (u "USER") = None
      \/ environ env_no_login (u "USER") = Some [] ->
      environ env_no_login (u "USERNAME") = None
      \/ environ env_no_login (u "USERNAME") = Some [] ->
      get_username env_no_login = u "User").
Proof. apply (get_username_fallback env_no_login). reflexivity. Defined.

Lemma elapsed_text_same_day_witness :
  let s := (second_of_day (mkdt 2024 1 1 10 4 30)
            - second_of_day (mkdt 2024 1 1 10 0 0))%Z in
  days (datetime_sub (mkdt 2024 1 1 10 4 30) (mkdt 2024 1 1 10 0 0)) = 0%Z
  /\ seconds (datetime_sub (mkdt 2024 1 1 10 4 30) (mkdt 2024 1 1 10 0 0)) = s
  /\ timedelta_str (datetime_sub (mkdt 2024 1 1 10 4 30) (mkdt 2024 1 1 10 0 0))
     = show_Z (s / 3600) ++ u ":" ++ dec 2 (Z.to_N (s / 60 mod 60))
       ++ u ":" ++ dec 2 (Z.to_N (s mod 60)).
Proof.
  apply (elapsed_text_same_day (mkdt 2024 1 1 10 4 30) (mkdt 2024 1 1 10 0 0));
    try reflexivity.
  vm_compute. discriminate.
Defined.

Lemma elapsed_text_backdated_witness :
  let s := (86400 + second_of_day (mkdt 2024 1 1 10 0 0)
            - second_of_day (mkdt 2024 1 1 10 4 30))%Z in
  days (datetime_sub (mkdt 2024 1 1 10 0 0) (mkdt 2024 1 1 10 4 30)) = (-1)%Z
  /\ seconds (datetime_sub (mkdt 2024 1 1 10 0 0) (mkdt 2024 1 1 10 4 30)) = s
  /\ timedelta_str (datetime_sub (mkdt 2024 1 1 10 0 0) (mkdt 2024 1 1 10 4 30))
     = u "-1 day, " ++ show_Z (s / 3600) ++ u ":"
       ++ dec 2 (Z.to_N (s / 60 mod 60)) ++ u ":" ++ dec 2 (Z.to_N (s mod 60)).
Proof.
  apply (elapsed_text_backdated (mkdt 2024 1 1 10 0 0) (mkdt 2024 1 1 10 4 30));
    reflexivity.
Defined.

Lemma timestamp_round_trip_witness :
  length (strftime_ts (mkdt 2024 2 29 23 59 59)) = 19%nat
  /\ strptime_padded (strftime_ts (mkdt 2024 2 29 23 59 59))
     = Some (mkdt 2024 2 29 23 59 59).
Proof.
  apply (timestamp_round_trip (mkdt 2024 2 29 23 59 59));
    [reflexivity|discriminate].
Defined.
